(** * The pressure monitor of [demo.py]

    A shallow embedding of the class [Pressure] (a PyContract monitor) and of
    its method [transition], followed by the properties of the hysteresis
    threshold monitor that the specification states about it.

    - Python floats are IEEE 754 binary64 values: [spec_float] with
      precision 53 and maximal exponent 1024, compared and subtracted with
      the operations of [SpecFloat].
    - The event is the dictionary produced by the CSV reader: a finite map
      from column names to the raw text of the cells.
    - The five dictionaries of the class are finite maps keyed by the
      entity identifier; they are attributes of the class, not of its
      instances, and [transition] updates them in place: it is modelled as a
      function from the dictionaries before the call to the dictionaries
      after it and the outcome of the call. *)

From Stdlib Require Import ZArith Bool Ascii String.
From Stdlib Require Import SpecFloat.
From stdpp Require Import gmap strings.

Local Open Scope string_scope.

(** ** Python floats *)

Definition float : Type := spec_float.

Definition prec : Z := 53.
Definition emax : Z := 1024.

(** [x - y] *)
Definition float_sub (x y : float) : float := SFsub prec emax x y.

(** [x < y], [x > y] and [x <= y]; every comparison with a NaN is false. *)
Definition float_lt (x y : float) : bool := SFltb x y.
Definition float_gt (x y : float) : bool := SFltb y x.
Definition float_le (x y : float) : bool := SFleb x y.

(** [x == y]; the two zeros are equal, a NaN is equal to nothing. *)
Definition float_eq (x y : float) : bool := SFeqb x y.

(** [abs(x)] *)
Definition float_abs (x : float) : float := SFabs x.

(** [bool(x)]: a float is falsy exactly when it is a zero (of either sign);
    a NaN is truthy. *)
Definition truthy (x : float) : bool :=
  match x with
  | S754_zero _ => false
  | _ => true
  end.

(** The float nearest to an integer. *)
Definition float_of_Z (z : Z) : float := binary_normalize prec emax z 0 false.

Arguments float_sub : simpl never.
Arguments float_lt : simpl never.
Arguments float_gt : simpl never.
Arguments float_le : simpl never.
Arguments float_eq : simpl never.
Arguments float_abs : simpl never.

(** ** Data *)

(** The row handed to the monitor: column name to cell text. *)
Abbreviation event := (gmap string string).

(** The exceptions [transition] can raise: a missing column, or a cell that
    [float()] rejects. *)
Inductive exn :=
  | KeyError (key : string)
  | ValueError (raw : string).

(** The four conditions, in the order in which [transition] checks them. *)
Inductive condition := TooHigh | TooLow | Increased | Decreased.

(** The value built by [error(f"...")]: the message with its holes.
    - [WasTooHigh id n]: "{id} was too high for {n} minutes"
    - [WasTooLow id n]: "{id} was too low for {n} minutes"
    - [IncreasedByOver id d n]: "{id} increased by over {d} bars for {n} minutes"
    - [DecreasedByOver id d n]: "{id} decreased by over {d} bars for {n} minutes" *)
Inductive error :=
  | WasTooHigh (pdm_id : string) (minutes : nat)
  | WasTooLow (pdm_id : string) (minutes : nat)
  | IncreasedByOver (pdm_id : string) (max_delta : float) (minutes : nat)
  | DecreasedByOver (pdm_id : string) (max_delta : float) (minutes : nat).

(** What a call of [transition] gives back: an exception, or the returned
    value, which is [None] or an error. *)
Inductive outcome :=
  | Raised (e : exn)
  | Returned (r : option error).

(** The attributes [__init__] sets on the instance. *)
Record Pressure := {
  MAX_UNSAFE : Z;
  MAX_DELTA : float;
  LOW : float;
  HIGH : float
}.

(** [FREQ: int = 15] *)
Definition FREQ : nat := 15.

(** [Pressure(low, high, max_delta, max_unsafe)] *)
Definition __init__ (low high max_delta : float) (max_unsafe : Z) : Pressure :=
  {| MAX_UNSAFE := max_unsafe; MAX_DELTA := max_delta; LOW := low; HIGH := high |}.

(** The five dictionaries declared in the body of the class. The counters
    are only ever written with [0] or with a successor. *)
Record class_dicts := {
  low_counts : gmap string nat;
  high_counts : gmap string nat;
  up_counts : gmap string nat;
  down_counts : gmap string nat;
  prev_value : gmap string float
}.

(** The dictionaries as the class body creates them. *)
Definition empty_dicts : class_dicts :=
  {| low_counts := ∅; high_counts := ∅; up_counts := ∅; down_counts := ∅;
     prev_value := ∅ |}.

Definition set_low_counts (f : gmap string nat → gmap string nat) (st : class_dicts) :=
  {| low_counts := f (low_counts st); high_counts := high_counts st;
     up_counts := up_counts st; down_counts := down_counts st;
     prev_value := prev_value st |}.

Definition set_high_counts (f : gmap string nat → gmap string nat) (st : class_dicts) :=
  {| low_counts := low_counts st; high_counts := f (high_counts st);
     up_counts := up_counts st; down_counts := down_counts st;
     prev_value := prev_value st |}.

Definition set_up_counts (f : gmap string nat → gmap string nat) (st : class_dicts) :=
  {| low_counts := low_counts st; high_counts := high_counts st;
     up_counts := f (up_counts st); down_counts := down_counts st;
     prev_value := prev_value st |}.

Definition set_down_counts (f : gmap string nat → gmap string nat) (st : class_dicts) :=
  {| low_counts := low_counts st; high_counts := high_counts st;
     up_counts := up_counts st; down_counts := f (down_counts st);
     prev_value := prev_value st |}.

Definition set_prev_value (f : gmap string float → gmap string float) (st : class_dicts) :=
  {| low_counts := low_counts st; high_counts := high_counts st;
     up_counts := up_counts st; down_counts := down_counts st;
     prev_value := f (prev_value st) |}.

(** [d.get(key, 0)] *)
Definition get (d : gmap string nat) (key : string) : nat := default 0 (d !! key).

(** The counter a condition owns. *)
Definition counts (c : condition) (st : class_dicts) : gmap string nat :=
  match c with
  | TooHigh => high_counts st
  | TooLow => low_counts st
  | Increased => up_counts st
  | Decreased => down_counts st
  end.

(** The error a condition reports for a streak of [count] readings. *)
Definition report (self : Pressure) (c : condition) (pdm_id : string) (count : nat) : error :=
  match c with
  | TooHigh => WasTooHigh pdm_id (count * FREQ)
  | TooLow => WasTooLow pdm_id (count * FREQ)
  | Increased => IncreasedByOver pdm_id (MAX_DELTA self) (count * FREQ)
  | Decreased => DecreasedByOver pdm_id (MAX_DELTA self) (count * FREQ)
  end.

Definition condition_of (e : error) : condition :=
  match e with
  | WasTooHigh _ _ => TooHigh
  | WasTooLow _ _ => TooLow
  | IncreasedByOver _ _ _ => Increased
  | DecreasedByOver _ _ _ => Decreased
  end.

(** ** Control flow inside [transition]

    A block of the method either falls through to the next one or leaves the
    method, with [return] or with an exception. *)
Inductive flow :=
  | Next (st : class_dicts)
  | Stop (st : class_dicts) (o : outcome).

Definition and_then (f : flow) (k : class_dicts → flow) : flow :=
  match f with
  | Next st => k st
  | Stop st o => Stop st o
  end.

Notation "f >>> k" := (and_then f k) (at level 61, left associativity).

(** Falling off the end of the method returns [None]. *)
Definition finish (f : flow) : class_dicts * outcome :=
  match f with
  | Next st => (st, Returned None)
  | Stop st o => (st, o)
  end.

(** ** The method [transition] *)

Section Transition.

(** [float(text)] on the text of a cell: the float it denotes, or nothing
    when Python raises [ValueError]. *)
Variable py_float : string → option float.

(** The pattern of every [case]:
    [{'ID': pdm_id, "Valore": value, 'Tipo Grandezza': "Pressione a valle"}].
    It binds [pdm_id] and [value] when the three keys are there and the kind
    is the monitored one. *)
Definition case_pattern (ev : event) : option (string * string) :=
  match ev !! "ID", ev !! "Valore", ev !! "Tipo Grandezza" with
  | Some pdm_id, Some value, Some kind =>
      if String.eqb kind "Pressione a valle" then Some (pdm_id, value) else None
  | _, _, _ => None
  end.

(** A [match event:] statement with one guarded [case]: when the pattern
    fails the statement does nothing; the guard and the body see the bound
    names. *)
Definition match_event (ev : event) (st : class_dicts)
    (body : string → string → flow) : flow :=
  match case_pattern ev with
  | Some (pdm_id, value) => body pdm_id value
  | None => Next st
  end.

(** Evaluating [float(value)] inside a guard. *)
Definition with_float (value : string) (st : class_dicts) (k : float → flow) : flow :=
  match py_float value with
  | Some v => k v
  | None => Stop st (Raised (ValueError value))
  end.

(** Lines 31 to 38: the body under [float(value) > self.HIGH]. *)
Definition check_high (self : Pressure) (pdm_id : string) (v : float)
    (st : class_dicts) : flow :=
  if float_gt v (HIGH self) then
    let count := S (get (high_counts st) pdm_id) in
    let st := set_high_counts (insert pdm_id count) st in
    if (Z.of_nat count >? MAX_UNSAFE self)%Z then
      Stop st (Returned (Some (WasTooHigh pdm_id (count * FREQ))))
    else
      Next (set_low_counts (insert pdm_id 0) st)
  else Next st.

(** Lines 41 to 49: the body under [float(value) < self.LOW]. *)
Definition check_low (self : Pressure) (pdm_id : string) (v : float)
    (st : class_dicts) : flow :=
  if float_lt v (LOW self) then
    let count := S (get (low_counts st) pdm_id) in
    let st := set_low_counts (insert pdm_id count) st in
    if (Z.of_nat count >? MAX_UNSAFE self)%Z then
      Stop st (Returned (Some (WasTooLow pdm_id (count * FREQ))))
    else
      Next (set_high_counts (insert pdm_id 0)
              (set_low_counts (insert pdm_id count) st))
  else Next st.

(** Lines 52 to 58, once [prev] is known to be truthy: the body under
    [float(value) - prev > self.MAX_DELTA]. *)
Definition check_up (self : Pressure) (pdm_id : string) (v prev : float)
    (st : class_dicts) : flow :=
  if float_gt (float_sub v prev) (MAX_DELTA self) then
    let count := S (get (up_counts st) pdm_id) in
    let st := set_up_counts (insert pdm_id count) st in
    if (Z.of_nat count >? MAX_UNSAFE self)%Z then
      Stop st (Returned (Some (IncreasedByOver pdm_id (MAX_DELTA self) (count * FREQ))))
    else
      Next (set_down_counts (insert pdm_id 0) st)
  else Next st.

(** Lines 61 to 67, once [prev] is known to be truthy: the body under
    [prev - float(value) > self.MAX_DELTA]. *)
Definition check_down (self : Pressure) (pdm_id : string) (v prev : float)
    (st : class_dicts) : flow :=
  if float_gt (float_sub prev v) (MAX_DELTA self) then
    let count := S (get (down_counts st) pdm_id) in
    let st := set_down_counts (insert pdm_id count) st in
    if (Z.of_nat count >? MAX_UNSAFE self)%Z then
      Stop st (Returned (Some (DecreasedByOver pdm_id (MAX_DELTA self) (count * FREQ))))
    else
      Next (set_up_counts (insert pdm_id 0) st)
  else Next st.

(** Lines 70 to 72, once [prev] is known to be truthy: the body under
    [abs(float(value) - prev) <= self.MAX_DELTA]. *)
Definition reset_stable (self : Pressure) (pdm_id : string) (v prev : float)
    (st : class_dicts) : flow :=
  if float_le (float_abs (float_sub v prev)) (MAX_DELTA self) then
    Next (set_down_counts (insert pdm_id 0) (set_up_counts (insert pdm_id 0) st))
  else Next st.

(** Lines 75 to 77: the body under
    [float(value) > self.LOW and float(value) < self.HIGH]. *)
Definition reset_safe (self : Pressure) (pdm_id : string) (v : float)
    (st : class_dicts) : flow :=
  if float_gt v (LOW self) && float_lt v (HIGH self) then
    Next (set_low_counts (insert pdm_id 0) (set_high_counts (insert pdm_id 0) st))
  else Next st.

(** The guard [prev and ...]: [prev] is [None] or a float, and the rest of
    the guard, with its [float(value)], is evaluated only when [prev] is
    truthy. *)
Definition if_prev (prev : option float) (st : class_dicts)
    (k : float → flow) : flow :=
  match prev with
  | Some p => if truthy p then k p else Next st
  | None => Next st
  end.

(** The six [match event:] statements of lines 29 to 77. *)
Definition block_high (self : Pressure) (ev : event) (st : class_dicts) : flow :=
  match_event ev st (fun pdm_id value =>
    with_float value st (fun v => check_high self pdm_id v st)).

Definition block_low (self : Pressure) (ev : event) (st : class_dicts) : flow :=
  match_event ev st (fun pdm_id value =>
    with_float value st (fun v => check_low self pdm_id v st)).

Definition block_up (self : Pressure) (ev : event) (prev : option float)
    (st : class_dicts) : flow :=
  match_event ev st (fun pdm_id value =>
    if_prev prev st (fun p =>
      with_float value st (fun v => check_up self pdm_id v p st))).

Definition block_down (self : Pressure) (ev : event) (prev : option float)
    (st : class_dicts) : flow :=
  match_event ev st (fun pdm_id value =>
    if_prev prev st (fun p =>
      with_float value st (fun v => check_down self pdm_id v p st))).

Definition block_stable (self : Pressure) (ev : event) (prev : option float)
    (st : class_dicts) : flow :=
  match_event ev st (fun pdm_id value =>
    if_prev prev st (fun p =>
      with_float value st (fun v => reset_stable self pdm_id v p st))).

Definition block_safe (self : Pressure) (ev : event) (st : class_dicts) : flow :=
  match_event ev st (fun pdm_id value =>
    with_float value st (fun v => reset_safe self pdm_id v st)).

(** [Pressure.transition(self, event)], on the dictionaries of the class.
    Every exception is raised before the first write. *)
Definition transition (self : Pressure) (ev : event) (st : class_dicts)
    : class_dicts * outcome :=
  match ev !! "Tipo Grandezza" with
  | None => (st, Raised (KeyError "Tipo Grandezza"))
  | Some kind =>
      if negb (String.eqb kind "Pressione a valle") then (st, Returned None)
      else
        match ev !! "ID" with
        | None => (st, Raised (KeyError "ID"))
        | Some pdm_id =>
            let prev := prev_value st !! pdm_id in
            match ev !! "Valore" with
            | None => (st, Raised (KeyError "Valore"))
            | Some value =>
                match py_float value with
                | None => (st, Raised (ValueError value))
                | Some v =>
                    let st := set_prev_value (insert pdm_id v) st in
                    finish (block_high self ev st
                            >>> block_low self ev
                            >>> block_up self ev prev
                            >>> block_down self ev prev
                            >>> block_stable self ev prev
                            >>> block_safe self ev)
                end
            end
        end
  end.

(** A reading the monitor processes: a row of the monitored kind whose
    value [float()] accepts, with its entity and its value. *)
Definition reading (ev : event) : option (string * float) :=
  match case_pattern ev with
  | Some (pdm_id, value) =>
      match py_float value with
      | Some v => Some (pdm_id, v)
      | None => None
      end
  | None => None
  end.

(** The checks of a processed reading, with the pattern matched and the
    value converted. *)
Definition checks (self : Pressure) (pdm_id : string) (v : float)
    (prev : option float) (st : class_dicts) : flow :=
  check_high self pdm_id v st
  >>> check_low self pdm_id v
  >>> (fun st => if_prev prev st (fun p => check_up self pdm_id v p st))
  >>> (fun st => if_prev prev st (fun p => check_down self pdm_id v p st))
  >>> (fun st => if_prev prev st (fun p => reset_stable self pdm_id v p st))
  >>> reset_safe self pdm_id v.

End Transition.

(** ** Vocabulary of the properties *)

(** The errors an outcome carries: none or one. *)
Definition violations (o : outcome) : list error :=
  match o with
  | Returned (Some e) => [e]
  | _ => []
  end.

(** The guard of the [case] of a condition, on a reading [v] of an entity
    whose stored previous value is [prev]. *)
Definition violates (self : Pressure) (c : condition) (prev : option float)
    (v : float) : bool :=
  match c with
  | TooHigh => float_gt v (HIGH self)
  | TooLow => float_lt v (LOW self)
  | Increased =>
      match prev with
      | Some p => truthy p && float_gt (float_sub v p) (MAX_DELTA self)
      | None => false
      end
  | Decreased =>
      match prev with
      | Some p => truthy p && float_gt (float_sub p v) (MAX_DELTA self)
      | None => false
      end
  end.

(** The place of a condition in the order of the checks. *)
Definition rank (c : condition) : nat :=
  match c with
  | TooHigh => 0
  | TooLow => 1
  | Increased => 2
  | Decreased => 3
  end.

(** The call returned the error of a check that comes before the one of
    [c]. *)
Definition preempted (c : condition) (o : outcome) : Prop :=
  ∃ e, o = Returned (Some e) ∧ rank (condition_of e) < rank c.

(** The check that, when it fires without an error, writes 0 into the
    counter of [c] before the check of [c] runs: too-high for the low
    streak, rising for the falling streak. *)
Definition reset_by_earlier (self : Pressure) (c : condition)
    (prev : option float) (v : float) : bool :=
  match c with
  | TooLow => violates self TooHigh prev v
  | Decreased => violates self Increased prev v
  | _ => false
  end.

(** The first two checks, on the thresholds of the level. *)
Definition level_checks (self : Pressure) (pdm_id : string) (v : float)
    (st : class_dicts) : flow :=
  check_high self pdm_id v st >>> check_low self pdm_id v.

(** ** Instances and the class

    The dictionaries belong to the class object; an instance carries only
    what [__init__] assigns. Looking up [self.high_counts] finds nothing on
    the instance and falls back to the class. *)

Record world := {
  class_attrs : class_dicts;
  instances : list Pressure
}.

(** The program before any monitor exists. *)
Definition initial_world : world :=
  {| class_attrs := empty_dicts; instances := [] |}.

(** [Pressure(low=..., high=..., max_delta=..., max_unsafe=...)]: allocates
    an instance and returns its reference. *)
Definition new_Pressure (low high max_delta : float) (max_unsafe : Z)
    (w : world) : nat * world :=
  (length (instances w),
   {| class_attrs := class_attrs w;
      instances := instances w ++ [__init__ low high max_delta max_unsafe] |}).

Section Instances.

Variable py_float : string → option float.

(** [monitor.transition(event)] on the instance behind a reference. *)
Definition call_transition (ref : nat) (ev : event) (w : world)
    : option (world * outcome) :=
  match instances w !! ref with
  | Some self =>
      let r := transition py_float self ev (class_attrs w) in
      Some ({| class_attrs := r.1; instances := instances w |}, r.2)
  | None => None
  end.

End Instances.

(** ** Runs of readings *)

Section Streaks.

Variable py_float : string → option float.

(** The rows are readings of the entity, fed one after the other from the
    state [st], and on each of them the streak of condition [c] goes on:
    the reading violates [c], no earlier check writes 0 into the counter of
    [c], and no earlier check returns its own error first. *)
Fixpoint streak_goes_on (self : Pressure) (c : condition) (pdm_id : string)
    (st : class_dicts) (rows : list event) : Prop :=
  match rows with
  | [] => True
  | ev :: rows' =>
      let r := transition py_float self ev st in
      (∃ v, reading py_float ev = Some (pdm_id, v) ∧
            violates self c (prev_value st !! pdm_id) v = true ∧
            reset_by_earlier self c (prev_value st !! pdm_id) v = false) ∧
      ¬ preempted c r.2 ∧
      streak_goes_on self c pdm_id r.1 rows'
  end.

(** Each of the rows, fed one after the other from the state [st], returns
    the error of condition [c] for a streak one longer than the one before,
    starting after [count], and leaves the counter of [c] at that streak. *)
Fixpoint reported_each_time (self : Pressure) (c : condition) (pdm_id : string)
    (count : nat) (st : class_dicts) (rows : list event) : Prop :=
  match rows with
  | [] => True
  | ev :: rows' =>
      let r := transition py_float self ev st in
      r.2 = Returned (Some (report self c pdm_id (S count))) ∧
      get (counts c r.1) pdm_id = S count ∧
      reported_each_time self c pdm_id (S count) r.1 rows'
  end.

End Streaks.

(** ** Sample inputs *)

(** The value of a run of decimal digits. *)
Fixpoint digits_value (s : string) (acc : Z) : option Z :=
  match s with
  | EmptyString => Some acc
  | String c s' =>
      let n := Z.of_nat (nat_of_ascii c) in
      if (48 <=? n)%Z && (n <=? 57)%Z then digits_value s' (10 * acc + (n - 48))%Z
      else None
  end.

(** [float()] restricted to plain integer literals with an optional minus
    sign; it rejects every other text. *)
Definition literal_float (raw : string) : option float :=
  match raw with
  | EmptyString => None
  | String "-" EmptyString => None
  | String "-" s => SFopp <$> (float_of_Z <$> digits_value s 0)
  | _ => float_of_Z <$> digits_value raw 0
  end.

(** A row with the three columns the monitor reads. *)
Definition row (pdm_id kind value : string) : event :=
  <["ID" := pdm_id]> (<["Tipo Grandezza" := kind]> (<["Valore" := value]> ∅)).

(** A row of the monitored kind. *)
Definition pressure_row (pdm_id value : string) : event :=
  row pdm_id "Pressione a valle" value.

(** The dictionaries after the method has been called on each row of a list
    in turn, and what each of the calls gave back. *)
Definition feed (self : Pressure) (rows : list event) (st : class_dicts)
    : class_dicts :=
  foldl (fun st ev => (transition literal_float self ev st).1) st rows.

Fixpoint outcomes (self : Pressure) (rows : list event) (st : class_dicts)
    : list outcome :=
  match rows with
  | [] => []
  | ev :: rows' =>
      let r := transition literal_float self ev st in
      r.2 :: outcomes self rows' r.1
  end.

(** The default thresholds scaled to integers: safe band 19 to 32, allowed
    change 1 per reading, tolerance of 3 readings. *)
Definition sample_monitor : Pressure :=
  __init__ (float_of_Z 19) (float_of_Z 32) (float_of_Z 1) 3.

(** Safe band 0 to 10, allowed change 1, tolerance 0: the first violating
    reading is already reported. *)
Definition strict_monitor : Pressure :=
  __init__ (float_of_Z 0) (float_of_Z 10) (float_of_Z 1) 0.

(** A monitor constructed with the low threshold above the high one. *)
Definition crossed_monitor : Pressure :=
  __init__ (float_of_Z 5) (float_of_Z 3) (float_of_Z 1) 3.

(** ** Runs of calls *)

Section Runs.

Variable py_float : string → option float.

(** The method called on each row of a list in turn, until a call raises:
    the dictionaries at the end, the errors the calls returned, in order,
    and the exception that ended the run, if one did. *)
Fixpoint run (self : Pressure) (rows : list event) (st : class_dicts)
    : class_dicts * list error * option exn :=
  match rows with
  | [] => (st, [], None)
  | ev :: rows' =>
      let r := transition py_float self ev st in
      match r.2 with
      | Raised e => (r.1, [], Some e)
      | Returned o =>
          let '(st', errors, raised) := run self rows' r.1 in
          (st', (violations (Returned o) ++ errors)%list, raised)
      end
  end.

End Runs.

(** The row has its kind column, and the kind is not the monitored one. *)
Definition other_kind (ev : event) : bool :=
  match ev !! "Tipo Grandezza" with
  | Some kind => negb (String.eqb kind "Pressione a valle")
  | None => false
  end.

(** What the dictionaries hold for one entity. *)
Definition entry (st : class_dicts) (pdm_id : string)
    : option nat * option nat * option nat * option nat * option float :=
  (low_counts st !! pdm_id, high_counts st !! pdm_id, up_counts st !! pdm_id,
   down_counts st !! pdm_id, prev_value st !! pdm_id).

(** No counter of any entity is above the tolerance. *)
Definition quiet (self : Pressure) (st : class_dicts) : Prop :=
  ∀ c pdm_id, (Z.of_nat (get (counts c st) pdm_id) ≤ MAX_UNSAFE self)%Z.

(** ** The command-line program

    [main] and [get_next_input] are sequences of calls to the outside: the
    terminal, the CSV reader, the PyContract harness. The model keeps their
    control flow and records the calls in a trace. *)

(** The parsed arguments, as [parser.parse_args()] returns them. *)
Record args := {
  infile : string;
  max_lines : option Z;
  max_unsafe : Z;
  max_delta : float;
  low : float;
  high : float;
  visualize : bool;
  memory : bool;
  online : bool
}.

(** What the program does to the outside, in order. *)
Inductive action :=
  | Input (prompt : string)      (* input(prompt): the prompt is written *)
  | Print (text : string)        (* print(text) *)
  | PrintIntro (a : args)        (* print_intro(args): its eight lines *)
  | PrintEvent (ev : event)      (* print(event) *)
  | Visualize                    (* visualize(__file__) *)
  | Eval (ev : event)            (* monitor.eval(event) *)
  | End                          (* monitor.end() *)
  | PrintMemory.                 (* the two lines of the memory report *)

(** [s.endswith(suffix)] *)
Fixpoint endswith (s suffix : string) : bool :=
  if String.eqb s suffix then true
  else
    match s with
    | EmptyString => false
    | String _ s' => endswith s' suffix
    end.

(** The prompt of [get_next_input] and its answer to anything but an empty
    line or "q". *)
Definition ask : action := Input "Press Enter to continue or 'q' to quit: ".

Definition complain : action :=
  Print "Invalid input. Please press Enter to continue or 'q' to quit.".

(** The rows the loop of [main] still accepts when an iteration starts with
    the given [line_count]. *)
Definition rows_left (a : args) (line_count : Z) (items : list (option event))
    : list (option event) :=
  match max_lines a with
  | Some n => take (Z.to_nat (n - line_count)) items
  | None => items
  end.

Section Program.

(** The harness: the state of the monitor object, the monitor that
    [Pressure(low, high, max_delta, max_unsafe)] builds, and what
    [monitor.eval] and [monitor.end] do to it and whether they raise. *)
Variables (M E : Type).
Variable monitor_new : float → float → float → Z → M.
Variable monitor_eval : event → M → M * option E.
Variable monitor_end : M → M * option E.

(** How a piece of the program ends. *)
Inductive ending :=
  | Falls                        (* control reaches the end of the piece *)
  | Exits (code : Z)             (* exit(code) *)
  | EOFError                     (* input() at the end of the input *)
  | RecursionError               (* the call stack is full *)
  | EvalRaises (e : E)           (* an exception out of monitor.eval *)
  | EndRaises (e : E).           (* an exception out of monitor.end *)

(** [get_next_input(monitor)], given the lines still to come on the
    standard input: the trace, how the call ends, the lines left and the
    monitor. The function calls itself once for every answer it does not
    accept, so the interpreter's stack bounds the number of such answers:
    [room] is the number of nested activations of the function the stack
    still has room for, and the activation for which there is none raises
    [RecursionError] before it asks anything. *)
Fixpoint get_next_input (room : nat) (stdin : list string) (m : M)
    : list action * ending * list string * M :=
  match room with
  | 0 => ([], RecursionError, stdin, m)
  | S room' =>
      match stdin with
      | [] => ([ask], EOFError, [], m)
      | resp :: stdin' =>
          if String.eqb resp "q" then
            let '(m', raised) := monitor_end m in
            ([ask; Print "Exiting monitor..."; End],
             match raised with
             | Some e => EndRaises e
             | None => Exits 0
             end, stdin', m')
          else if negb (String.eqb resp "") then
            let '(t, e, rest, m') := get_next_input room' stdin' m in
            (ask :: complain :: t, e, rest, m')
          else ([ask], Falls, stdin', m)
      end
  end.

(** The room the stack has for activations of [get_next_input] when [main]
    calls it. *)
Variable room : nat.

(** The [for] loop of [main] over what the reader yields, a row or [None],
    entered with the current [line_count]. *)
Fixpoint read_loop (a : args) (line_count : Z) (items : list (option event))
    (stdin : list string) (m : M) : list action * ending * list string * M :=
  match items with
  | [] => ([], Falls, stdin, m)
  | item :: items' =>
      let line_count := (line_count + 1)%Z in
      if match max_lines a with
         | Some n => (line_count >? n)%Z
         | None => false
         end
      then ([], Falls, stdin, m)
      else
        match item with
        | None => read_loop a line_count items' stdin m
        | Some ev =>
            let '(t1, e1, stdin1, m1) :=
              if online a then get_next_input room stdin m
              else ([], Falls, stdin, m) in
            match e1 with
            | Falls =>
                let '(m2, raised) := monitor_eval ev m1 in
                match raised with
                | Some e =>
                    ((t1 ++ [PrintEvent ev; Eval ev])%list, EvalRaises e,
                     stdin1, m2)
                | None =>
                    let '(t, e, rest, m') :=
                      read_loop a line_count items' stdin1 m2 in
                    ((t1 ++ PrintEvent ev :: Eval ev :: t)%list, e, rest, m')
                end
            | _ => (t1, e1, stdin1, m1)
            end
        end
  end.

(** [main()], after the arguments are parsed, on what the reader yields
    for [args.infile] and the lines of the standard input: the trace and
    how the program ends. *)
Definition main (a : args) (items : list (option event))
    (stdin : list string) : list action * ending :=
  if negb (endswith (infile a) ".csv") then
    ([Print "Error: The input file must be a CSV."], Exits 1)
  else
    let t0 := ((if visualize a then [Visualize] else []) ++ [PrintIntro a])%list in
    let monitor := monitor_new (low a) (high a) (max_delta a) (max_unsafe a) in
    let '(t, e, _, m) := read_loop a 0 items stdin monitor in
    match e with
    | Falls =>
        match (monitor_end m).2 with
        | Some x => ((t0 ++ t ++ [End])%list, EndRaises x)
        | None =>
            ((t0 ++ t ++ End :: (if memory a then [PrintMemory] else []))%list,
             Falls)
        end
    | _ => ((t0 ++ t)%list, e)
    end.

End Program.

(** The rows the reader yields before the limit of [--max_lines]. *)
Definition within_limit (a : args) (items : list (option event))
    : list (option event) :=
  rows_left a 0 items.

(** The rows handed to [monitor.eval], in order. *)
Definition evaluated (t : list action) : list event :=
  omap (λ x, match x with Eval ev => Some ev | _ => None end) t.

(** How many times [monitor.end] is called. *)
Definition ends (t : list action) : nat :=
  List.length (List.filter (λ x, match x with End => true | _ => false end) t).

(** ** More sample inputs *)

(** [float()] on integer literals and on "nan". *)
Definition sample_float (raw : string) : option float :=
  if String.eqb raw "nan" then Some S754_nan else literal_float raw.

(** A harness that does nothing but call [transition] on the dictionaries
    of the class: the monitor object and the dictionaries as its state, the
    exceptions of the method passed on. *)
Definition sample_eval (ev : event) (m : Pressure * class_dicts)
    : Pressure * class_dicts * option exn :=
  let r := transition literal_float m.1 ev m.2 in
  ((m.1, r.1), match r.2 with Raised e => Some e | Returned _ => None end).

Definition sample_new (low high max_delta : float) (max_unsafe : Z)
    : Pressure * class_dicts :=
  (__init__ low high max_delta max_unsafe, empty_dicts).

(** The arguments of [python demo.py pressure.csv -l 3], with the default
    thresholds scaled to integers. *)
Definition sample_args : args :=
  {| infile := "pressure.csv"; max_lines := Some 3%Z; max_unsafe := 3;
     max_delta := float_of_Z 1; low := float_of_Z 19; high := float_of_Z 32;
     visualize := false; memory := false; online := false |}.

(** ** Proof steps *)

Ltac unfold_checks :=
  unfold checks, check_high, check_low, check_up, check_down, reset_stable,
    reset_safe, if_prev.

(** Follows every path through the six checks. *)
Ltac split_checks :=
  unfold_checks;
  repeat (simpl; match goal with
          | |- context [match ?x with _ => _ end] =>
              lazymatch x with
              | context [match _ with _ => _ end] => fail
              | _ => destruct x eqn:?
              end
          end); simpl.

(** Turns the recorded outcomes of the comparisons with the tolerance
    into inequalities. *)
Ltac gtb_facts :=
  repeat match goal with
         | H : (_ >? _)%Z = true |- _ => rewrite Z.gtb_ltb, Z.ltb_lt in H
         | H : (_ >? _)%Z = false |- _ => rewrite Z.gtb_ltb, Z.ltb_ge in H
         end.

(** Reads a counter back after the writes of the checks. *)
Ltac norm_get :=
  unfold get in *; simpl in *; rewrite ?lookup_insert_eq in *; simpl in *.

(** ** Comparisons of floats *)

Lemma SFcompare_swap (x y : spec_float) :
  SFcompare y x = CompOpp <$> SFcompare x y.
Proof.
  destruct x as [sx|sx| |sx mx ex], y as [sy|sy| |sy my ey]; simpl;
    try destruct sx; try destruct sy; simpl; try reflexivity.
  all: rewrite (Z.compare_antisym ey ex).
  all: destruct (ey ?= ex)%Z; simpl; try reflexivity.
  all: change (Pos.compare_cont Eq ?a ?b) with (Pos.compare a b).
  all: rewrite (Pos.compare_antisym my mx); by destruct (my ?= mx)%positive.
Qed.

Lemma float_lt_asym x y : float_lt x y = true → float_lt y x = false.
Proof.
  unfold float_lt, SFltb. rewrite (SFcompare_swap x y).
  destruct (SFcompare x y) as [[]|]; simpl; congruence.
Qed.

Lemma float_lt_not_gt x y : float_lt x y = true → float_gt x y = false.
Proof. apply float_lt_asym. Qed.

Lemma float_eq_not_lt x y :
  float_eq x y = true → float_lt x y = false ∧ float_lt y x = false.
Proof.
  unfold float_eq, float_lt, SFeqb, SFltb. rewrite (SFcompare_swap x y).
  destruct (SFcompare x y) as [[]|]; simpl; try congruence. auto.
Qed.

(** Two floats that compare equal are the same float, or two zeros. *)
Lemma float_eq_true x y :
  float_eq x y = true → x = y ∨ (truthy x = false ∧ truthy y = false).
Proof.
  unfold float_eq, SFeqb.
  destruct x as [sx|sx| |sx mx ex], y as [sy|sy| |sy my ey]; simpl;
    try destruct sx; try destruct sy; simpl; try congruence; auto.
  all: destruct (Z.compare_spec ex ey); try congruence; subst.
  all: change (Pos.compare_cont Eq ?a ?b) with (Pos.compare a b).
  all: destruct (Pos.compare_spec mx my); simpl; try congruence; subst; auto.
Qed.

Lemma SFcompare_zeros x y z :
  truthy x = false → truthy y = false → SFcompare z x = SFcompare z y.
Proof. destruct x, y; simpl; try congruence; destruct z; reflexivity. Qed.

(** Comparison does not tell apart two floats that are [==]. *)
Lemma SFcompare_float_eq x y z :
  float_eq x y = true → SFcompare z x = SFcompare z y.
Proof.
  intros H. destruct (float_eq_true _ _ H) as [->|[Hx Hy]]; [reflexivity|].
  by apply SFcompare_zeros.
Qed.

Lemma float_lt_float_eq x y z :
  float_eq x y = true → float_lt z x = float_lt z y.
Proof. intros H. unfold float_lt, SFltb. by rewrite (SFcompare_float_eq x y z H). Qed.

Lemma float_lt_float_eq_l x y z :
  float_eq x y = true → float_lt x z = float_lt y z.
Proof.
  intros H. unfold float_lt, SFltb.
  by rewrite (SFcompare_swap z x), (SFcompare_swap z y), (SFcompare_float_eq x y z H).
Qed.

(** The floats equal to 0.0 are the falsy ones. *)
Lemma float_eq_zero x : float_eq x (S754_zero false) = true ↔ truthy x = false.
Proof. by destruct x as [s|s| |s m e]; try destruct s. Qed.

(** A difference above the bound has its absolute value above it too. *)
Lemma float_gt_abs d m :
  float_gt d m = true → float_le (float_abs d) m = false.
Proof.
  unfold float_gt, float_le, float_abs, SFltb, SFleb. intros H.
  destruct (SFcompare (SFabs d) m) as [[]|] eqn:E; try reflexivity; exfalso;
  destruct d as [sd|sd| |sd md ed], m as [sm|sm| |sm mm em]; simpl in *;
    try destruct sd; try destruct sm; simpl in *; try congruence.
  all: rewrite (Z.compare_antisym ed em) in H;
       destruct (ed ?= em)%Z; simpl in *; try congruence.
  all: change (Pos.compare_cont Eq ?a ?b) with (Pos.compare a b) in *.
  all: rewrite (Pos.compare_antisym md mm) in H;
       destruct (md ?= mm)%positive; simpl in *; congruence.
Qed.

(** ** The method on a processed reading *)

Section Facts.

Variable py_float : string → option float.

Lemma and_then_ext f f' k k' :
  f = f' → (∀ st, k st = k' st) → f >>> k = f' >>> k'.
Proof. intros <- H. destruct f; simpl; auto. Qed.

Lemma reading_inv ev pdm_id v :
  reading py_float ev = Some (pdm_id, v) →
  ∃ value, case_pattern ev = Some (pdm_id, value) ∧ py_float value = Some v
    ∧ ev !! "ID" = Some pdm_id ∧ ev !! "Valore" = Some value
    ∧ ev !! "Tipo Grandezza" = Some "Pressione a valle".
Proof.
  unfold reading. destruct (case_pattern ev) as [[i value]|] eqn:Hc; [|done].
  destruct (py_float value) as [x|] eqn:Hf; [|done].
  intros [= -> ->]. exists value. repeat split; try done.
  all: unfold case_pattern in Hc.
  all: destruct (ev !! "ID") as [i|]; [|done].
  all: destruct (ev !! "Valore") as [r|]; [|done].
  all: destruct (ev !! "Tipo Grandezza") as [k|]; [|done].
  all: destruct (String.eqb_spec k "Pressione a valle"); [|done].
  all: by simplify_eq.
Qed.

(** On a processed reading the method stores the value and runs the six
    checks on the bound entity and the converted value. *)
Lemma transition_reading self ev st pdm_id v :
  reading py_float ev = Some (pdm_id, v) →
  transition py_float self ev st =
    finish (checks self pdm_id v (prev_value st !! pdm_id)
              (set_prev_value (insert pdm_id v) st)).
Proof.
  intros (value & Hc & Hf & Hid & Hv & Hk)%reading_inv.
  unfold transition. rewrite Hk, Hid, Hv, Hf. simpl.
  f_equal. unfold checks.
  repeat apply and_then_ext.
  all: intros; unfold block_safe, block_stable, block_down, block_up,
         block_low, block_high, match_event, with_float, if_prev; rewrite Hc.
  all: try (destruct (prev_value st !! pdm_id) as [p|]; [destruct (truthy p)|]).
  all: by rewrite ?Hf.
Qed.

(** Anything else raises or returns [None], and writes nothing. *)
Lemma transition_not_reading self ev st :
  reading py_float ev = None →
  ∃ o, transition py_float self ev st = (st, o) ∧ ∀ e, o ≠ Returned (Some e).
Proof.
  unfold reading, case_pattern, transition.
  destruct (ev !! "Tipo Grandezza") as [k|]; [|by eexists].
  destruct (String.eqb_spec k "Pressione a valle"); simpl; [|by eexists].
  destruct (ev !! "ID") as [i|]; [|by eexists].
  destruct (ev !! "Valore") as [r|]; [|by eexists].
  destruct (py_float r); [done|by eexists].
Qed.

(** The checks of one entity write no key of another. *)
Lemma checks_frame self A B v prev st :
  A ≠ B →
  let st' := (finish (checks self A v prev st)).1 in
  low_counts st' !! B = low_counts st !! B ∧
  high_counts st' !! B = high_counts st !! B ∧
  up_counts st' !! B = up_counts st !! B ∧
  down_counts st' !! B = down_counts st !! B ∧
  prev_value st' !! B = prev_value st !! B.
Proof.
  intros Hne. split_checks.
  all: by rewrite ?lookup_insert_ne.
Qed.

(** A call for entity [A] writes no key of another entity. *)
Lemma transition_frame self ev st A B :
  ev !! "ID" = Some A →
  A ≠ B →
  let st' := (transition py_float self ev st).1 in
  low_counts st' !! B = low_counts st !! B ∧
  high_counts st' !! B = high_counts st !! B ∧
  up_counts st' !! B = up_counts st !! B ∧
  down_counts st' !! B = down_counts st !! B ∧
  prev_value st' !! B = prev_value st !! B.
Proof.
  intros Hid Hne. simpl.
  destruct (reading py_float ev) as [[i v]|] eqn:Hr.
  - destruct (reading_inv _ _ _ Hr) as (? & _ & _ & Hi & _). simplify_eq.
    rewrite (transition_reading _ _ _ _ _ Hr).
    destruct (checks_frame self A B v (prev_value st !! A)
                (set_prev_value (insert A v) st) Hne) as (? & ? & ? & ? & Hp).
    repeat split; try done.
    simpl in Hp. by rewrite lookup_insert_ne in Hp.
  - by destruct (transition_not_reading self ev st Hr) as (o & -> & _).
Qed.

End Facts.

(** ** Properties of the monitor *)

Section Properties.

Variable py_float : string → option float.

(** C7. A record whose measurement kind is not the monitored one produces
    no violation and no change of state: the method returns [None] and the
    five dictionaries are the ones it was called with. *)
Theorem other_kind_is_ignored self ev st kind :
  ev !! "Tipo Grandezza" = Some kind →
  kind ≠ "Pressione a valle" →
  transition py_float self ev st = (st, Returned None).
Proof.
  intros Hk Hne. unfold transition. rewrite Hk.
  by destruct (String.eqb_spec kind "Pressione a valle").
Qed.

(** C8. A processed reading of entity [A] leaves the four streak counters
    and the previous value of every other entity [B] as they were, down to
    whether they are present in the dictionaries. *)
Theorem entities_are_independent self ev st A B v :
  reading py_float ev = Some (A, v) →
  A ≠ B →
  let st' := (transition py_float self ev st).1 in
  low_counts st' !! B = low_counts st !! B ∧
  high_counts st' !! B = high_counts st !! B ∧
  up_counts st' !! B = up_counts st !! B ∧
  down_counts st' !! B = down_counts st !! B ∧
  prev_value st' !! B = prev_value st !! B.
Proof.
  intros (value & _ & _ & Hid & _)%reading_inv Hne.
  by apply (transition_frame py_float self ev st A B).
Qed.

(** C6. From a state in which the four streak counters of the entity are
    0, a reading strictly inside the safe band leaves its high and low
    streaks at 0. *)
Theorem safe_reading_keeps_level_streaks_zero self ev st pdm_id v :
  reading py_float ev = Some (pdm_id, v) →
  get (high_counts st) pdm_id = 0 →
  get (low_counts st) pdm_id = 0 →
  get (up_counts st) pdm_id = 0 →
  get (down_counts st) pdm_id = 0 →
  float_lt (LOW self) v = true →
  float_lt v (HIGH self) = true →
  let st' := (transition py_float self ev st).1 in
  get (high_counts st') pdm_id = 0 ∧ get (low_counts st') pdm_id = 0.
Proof.
  intros Hr Hh Hl _ _ Hlo Hhi. rewrite (transition_reading _ _ _ _ _ _ Hr).
  pose proof (float_lt_not_gt _ _ Hhi) as Hnh.
  pose proof (float_lt_asym _ _ Hlo) as Hnl.
  assert (float_gt v (LOW self) && float_lt v (HIGH self) = true) as Hsafe
    by (change (float_gt v (LOW self)) with (float_lt (LOW self) v);
        by rewrite Hlo, Hhi).
  split_checks; try congruence.
  all: unfold get in *; by rewrite ?lookup_insert_eq.
Qed.

(** C5 (amended). Unless the low threshold is above the high one, a reading
    equal to a threshold fires neither the too-high check, nor the too-low
    check, nor the safe-band reset, and leaves the dictionaries of the high
    and low streaks as they were. *)
Theorem threshold_reading_keeps_level_streaks self ev st pdm_id v :
  reading py_float ev = Some (pdm_id, v) →
  float_gt (LOW self) (HIGH self) = false →
  float_eq v (LOW self) = true ∨ float_eq v (HIGH self) = true →
  float_gt v (HIGH self) = false ∧
  float_lt v (LOW self) = false ∧
  float_gt v (LOW self) && float_lt v (HIGH self) = false ∧
  let st' := (transition py_float self ev st).1 in
  high_counts st' = high_counts st ∧ low_counts st' = low_counts st.
Proof.
  intros Hr Hcfg Heq.
  assert (float_gt v (HIGH self) = false ∧ float_lt v (LOW self) = false ∧
          float_gt v (LOW self) && float_lt v (HIGH self) = false)
    as (Hh & Hl & Hs).
  { destruct Heq as [Heq|Heq]; destruct (float_eq_not_lt _ _ Heq) as [H1 H2].
    - repeat split; [|done|].
      + unfold float_gt. by rewrite (float_lt_float_eq _ _ _ Heq).
      + change (float_gt v (LOW self)) with (float_lt (LOW self) v).
        by rewrite H2.
    - repeat split; [done| |].
      + by rewrite (float_lt_float_eq_l _ _ _ Heq).
      + rewrite H1. apply andb_false_r. }
  repeat split; try done.
  all: rewrite (transition_reading _ _ _ _ _ _ Hr).
  all: split_checks; congruence.
Qed.

(** C9. When the stored previous value of the entity is 0.0, the next
    reading is processed exactly as if the entity had no previous value:
    same outcome, same dictionaries afterwards; the rising and falling
    streaks are neither incremented nor reset. *)
Theorem zero_previous_value_is_no_previous_value self ev st pdm_id v prev :
  reading py_float ev = Some (pdm_id, v) →
  prev_value st !! pdm_id = Some prev →
  float_eq prev (S754_zero false) = true →
  transition py_float self ev st
    = transition py_float self ev (set_prev_value (delete pdm_id) st) ∧
  up_counts (transition py_float self ev st).1 = up_counts st ∧
  down_counts (transition py_float self ev st).1 = down_counts st.
Proof.
  intros Hr Hp Hz%float_eq_zero.
  rewrite !(transition_reading _ _ _ _ _ _ Hr). simpl.
  rewrite Hp, lookup_delete_eq.
  unfold set_prev_value at 2. simpl. rewrite insert_delete_eq.
  split; [|split].
  - unfold_checks. rewrite Hz. reflexivity.
  - split_checks; congruence.
  - split_checks; congruence.
Qed.

(** C1 (amended). A call returns an error exactly when it increments one of
    the four streak counters of an entity to a value above the tolerance:
    from [MAX_UNSAFE] to [MAX_UNSAFE + 1], or from any larger value, since
    the error does not reset the counter. The error is the one of that
    condition and reports that streak. A counter incremented to exactly
    [MAX_UNSAFE] or less justifies no error. *)
Theorem violation_iff_streak_exceeds_tolerance self ev st e :
  let r := transition py_float self ev st in
  r.2 = Returned (Some e) ↔
  ∃ pdm_id c,
    get (counts c r.1) pdm_id = S (get (counts c st) pdm_id) ∧
    (Z.of_nat (get (counts c r.1) pdm_id) > MAX_UNSAFE self)%Z ∧
    e = report self c pdm_id (get (counts c r.1) pdm_id).
Proof.
  simpl. destruct (reading py_float ev) as [[pdm_id v]|] eqn:Hr.
  - rewrite (transition_reading _ _ _ _ _ _ Hr). split.
    + split_checks; intros [= <-]; gtb_facts.
      all: first
        [ exists pdm_id, TooHigh; norm_get; repeat split; (lia || done)
        | exists pdm_id, TooLow; norm_get; repeat split; (lia || done)
        | exists pdm_id, Increased; norm_get; repeat split; (lia || done)
        | exists pdm_id, Decreased; norm_get; repeat split; (lia || done) ].
    + intros (i & c & H1 & H2 & ->).
      destruct (decide (pdm_id = i)) as [<-|Hne].
      * revert H1 H2. split_checks; intros H1 H2; gtb_facts.
        all: destruct c; norm_get; first [lia | done | (do 2 f_equal; lia) | idtac].
      * exfalso.
        destruct (checks_frame self pdm_id i v (prev_value st !! pdm_id)
              (set_prev_value (insert pdm_id v) st) Hne) as (Hl & Hh & Hu & Hd & _).
        simpl in Hl, Hh, Hu, Hd.
        destruct c; unfold get in H1; simpl in H1;
          rewrite ?Hl, ?Hh, ?Hu, ?Hd in H1; lia.
  - destruct (transition_not_reading py_float self ev st Hr) as (o & -> & Ho).
    simpl. split.
    + intros ->. by destruct (Ho e).
    + intros (i & c & H1 & _). lia.
Qed.

(** C2. A call returns at most one error, and the check that returns it is
    the last thing the call does: the counters of the checks that come
    after it in the order high, low, rising, falling are the dictionaries
    the call started with, the counter of the check itself is incremented
    and not reset, and the resets at the end of the method are not applied
    (for a rising or falling error the level counters are as the first two
    checks left them). *)
Theorem first_violation_ends_the_reading self ev st :
  let r := transition py_float self ev st in
  (List.length (violations r.2) ≤ 1)%nat ∧
  ∀ e, r.2 = Returned (Some e) →
    ∃ pdm_id v,
      reading py_float ev = Some (pdm_id, v) ∧
      prev_value r.1 = <[pdm_id := v]> (prev_value st) ∧
      match condition_of e with
      | TooHigh =>
          high_counts r.1
            = <[pdm_id := S (get (high_counts st) pdm_id)]> (high_counts st) ∧
          low_counts r.1 = low_counts st ∧
          up_counts r.1 = up_counts st ∧
          down_counts r.1 = down_counts st
      | TooLow =>
          low_counts r.1
            = <[pdm_id := S (get (low_counts st) pdm_id)]> (low_counts st) ∧
          high_counts r.1 = high_counts st ∧
          up_counts r.1 = up_counts st ∧
          down_counts r.1 = down_counts st
      | Increased =>
          up_counts r.1
            = <[pdm_id := S (get (up_counts st) pdm_id)]> (up_counts st) ∧
          down_counts r.1 = down_counts st ∧
          ∃ s, level_checks self pdm_id v st = Next s ∧
               high_counts r.1 = high_counts s ∧ low_counts r.1 = low_counts s
      | Decreased =>
          down_counts r.1
            = <[pdm_id := S (get (down_counts st) pdm_id)]> (down_counts st) ∧
          up_counts r.1 = up_counts st ∧
          ∃ s, level_checks self pdm_id v st = Next s ∧
               high_counts r.1 = high_counts s ∧ low_counts r.1 = low_counts s
      end.
Proof.
  simpl. split.
  { destruct (transition py_float self ev st) as [? [|[]]]; simpl; lia. }
  intros e. destruct (reading py_float ev) as [[pdm_id v]|] eqn:Hr.
  - rewrite (transition_reading _ _ _ _ _ _ Hr).
    intros He. exists pdm_id, v. split; [done|]. revert He.
    unfold level_checks.
    split_checks; intros [= <-]; gtb_facts; simpl.
    all: repeat split; try done.
    all: try (norm_get; lia).
    all: eexists; split; [reflexivity|]; simpl; done.
  - destruct (transition_not_reading py_float self ev st Hr) as (o & -> & Ho).
    simpl. intros ->. by destruct (Ho e).
Qed.

Lemma report_inj self c c' i i' n n' :
  report self c i n = report self c' i' n' → c = c' ∧ i = i' ∧ n = n'.
Proof.
  destruct c, c'; simpl; intros [=]; subst; repeat split; try done.
  all: unfold FREQ in *; lia.
Qed.

(** An error names the entity of the reading and reports the counter of its
    condition, which is above the tolerance. *)
Lemma error_reports_counter self ev st e :
  let r := transition py_float self ev st in
  r.2 = Returned (Some e) →
  ∃ pdm_id v c,
    reading py_float ev = Some (pdm_id, v) ∧
    e = report self c pdm_id (get (counts c r.1) pdm_id) ∧
    (Z.of_nat (get (counts c r.1) pdm_id) > MAX_UNSAFE self)%Z.
Proof.
  simpl. destruct (reading py_float ev) as [[pdm_id v]|] eqn:Hr.
  - rewrite (transition_reading _ _ _ _ _ _ Hr). intros He.
    exists pdm_id, v. revert He.
    split_checks; intros [= <-]; gtb_facts.
    all: first
      [ exists TooHigh; norm_get; repeat split; (lia || done)
      | exists TooLow; norm_get; repeat split; (lia || done)
      | exists Increased; norm_get; repeat split; (lia || done)
      | exists Decreased; norm_get; repeat split; (lia || done) ].
  - destruct (transition_not_reading py_float self ev st Hr) as (o & -> & Ho).
    simpl. intros ->. by destruct (Ho e).
Qed.

(** One more reading of a streak that is already above the tolerance. *)
Lemma streak_step self c pdm_id count st ev v :
  get (counts c st) pdm_id = count →
  (Z.of_nat count > MAX_UNSAFE self)%Z →
  reading py_float ev = Some (pdm_id, v) →
  violates self c (prev_value st !! pdm_id) v = true →
  reset_by_earlier self c (prev_value st !! pdm_id) v = false →
  let r := transition py_float self ev st in
  ¬ preempted c r.2 →
  r.2 = Returned (Some (report self c pdm_id (S count))) ∧
  get (counts c r.1) pdm_id = S count.
Proof.
  intros Hcnt Hgt Hr. simpl. rewrite (transition_reading _ _ _ _ _ _ Hr).
  subst count. unfold preempted.
  destruct c; simpl; split_checks; intros Hv Hreset Hpre; gtb_facts.
  all: try done.
  all: try lia.
  all: try (exfalso; apply Hpre; eexists; split; [reflexivity|simpl; lia]).
  all: norm_get; try done.
  all: try lia.
Qed.

(** C3 (amended). The error does not reset the counter that triggered it:
    after a call that returns the error of a condition for a streak of
    [count] readings, the counter of that condition is [count], above the
    tolerance. Every following consecutive reading of the entity that
    violates the same condition then returns the error of that condition
    again, for a streak one longer each time, as long as no check that comes
    before it in the order returns its own error first or writes 0 into the
    counter. The too-high check comes first, so for it the proviso is
    empty. *)
Theorem violation_is_repeated_while_streak_lasts self c pdm_id count ev st rows :
  let r := transition py_float self ev st in
  r.2 = Returned (Some (report self c pdm_id count)) →
  get (counts c r.1) pdm_id = count ∧
  (Z.of_nat count > MAX_UNSAFE self)%Z ∧
  (streak_goes_on py_float self c pdm_id r.1 rows →
   reported_each_time py_float self c pdm_id count r.1 rows).
Proof.
  simpl. intros He.
  destruct (error_reports_counter _ _ _ _ He) as (i & v & c' & _ & H1 & Hgt).
  apply report_inj in H1 as (<- & <- & Hc). rewrite <- Hc in Hgt.
  symmetry in Hc. split; [done|]. split; [done|].
  revert Hc Hgt. generalize (transition py_float self ev st).1. clear He.
  intros st1 Hc Hgt. revert st1 count Hc Hgt.
  induction rows as [|ev' rows IH]; intros st1 count Hc Hgt; [done|].
  simpl. intros ((v' & Hr & Hv & Hreset) & Hpre & Hrest).
  destruct (streak_step self c pdm_id count st1 ev' v' Hc Hgt Hr Hv Hreset Hpre)
    as [Hout Hcnt].
  repeat split; [done..|].
  apply IH; [done|lia|done].
Qed.

(** C4 (amended). Take a processed reading [v] of an entity whose stored
    previous value [prev] is present and is not a zero, with
    [v - prev > MAX_DELTA], on which neither the too-high nor the too-low
    check returns its error. The rising streak is incremented. If it is now
    above the tolerance, the call returns the "increased by over" error for
    that streak and stops: the rising streak keeps the incremented value and
    the falling streak is not written. Otherwise the call returns [None] and
    the falling streak is reset to 0; the two streaks end as the rising
    check left them unless the falling check fires on the same reading
    (which takes a negative [MAX_DELTA]) and then sets them to 0 and 1. *)
Theorem rising_check self ev st pdm_id v prev :
  reading py_float ev = Some (pdm_id, v) →
  prev_value st !! pdm_id = Some prev →
  truthy prev = true →
  float_gt (float_sub v prev) (MAX_DELTA self) = true →
  let r := transition py_float self ev st in
  ¬ preempted Increased r.2 →
  let count := S (get (up_counts st) pdm_id) in
  if (Z.of_nat count >? MAX_UNSAFE self)%Z then
    r.2 = Returned (Some (IncreasedByOver pdm_id (MAX_DELTA self) (count * FREQ))) ∧
    up_counts r.1 = <[pdm_id := count]> (up_counts st) ∧
    down_counts r.1 = down_counts st
  else
    r.2 = Returned None ∧
    if float_gt (float_sub prev v) (MAX_DELTA self) then
      get (up_counts r.1) pdm_id = 0 ∧ get (down_counts r.1) pdm_id = 1
    else
      get (up_counts r.1) pdm_id = count ∧ get (down_counts r.1) pdm_id = 0.
Proof.
  intros Hr Hp Ht Hup. simpl.
  rewrite (transition_reading _ _ _ _ _ _ Hr), Hp.
  pose proof (float_gt_abs _ _ Hup) as Hstable.
  unfold preempted.
  split_checks; intros Hpre; gtb_facts.
  all: try congruence.
  all: try (exfalso; apply Hpre; eexists; split; [reflexivity|simpl; lia]).
  all: norm_get; repeat split; try done; try lia.
Qed.



End Properties.

(** ** The properties on sample readings *)

(** A flow-rate row between pressure rows changes nothing. *)
Lemma other_kind_is_ignored_witness :
  let st := feed sample_monitor [pressure_row "P1" "33"] empty_dicts in
  transition literal_float sample_monitor (row "P1" "Portata" "99") st
    = (st, Returned None).
Proof.
  apply (other_kind_is_ignored literal_float sample_monitor
           (row "P1" "Portata" "99") _ "Portata").
  - vm_compute. reflexivity.
  - discriminate.
Defined.

(** A reading of "P1" leaves what is stored for "P2". *)
Lemma entities_are_independent_witness :
  let st := feed sample_monitor [pressure_row "P2" "40"] empty_dicts in
  let st' := (transition literal_float sample_monitor (pressure_row "P1" "33") st).1 in
  low_counts st' !! "P2" = low_counts st !! "P2" ∧
  high_counts st' !! "P2" = high_counts st !! "P2" ∧
  up_counts st' !! "P2" = up_counts st !! "P2" ∧
  down_counts st' !! "P2" = down_counts st !! "P2" ∧
  prev_value st' !! "P2" = prev_value st !! "P2".
Proof.
  apply (entities_are_independent literal_float sample_monitor
           (pressure_row "P1" "33") _ "P1" "P2" (float_of_Z 33)).
  - vm_compute. reflexivity.
  - discriminate.
Defined.

(** The first reading of an entity, inside the safe band. *)
Lemma safe_reading_keeps_level_streaks_zero_witness :
  let st' := (transition literal_float sample_monitor (pressure_row "P1" "25")
                empty_dicts).1 in
  get (high_counts st') "P1" = 0 ∧ get (low_counts st') "P1" = 0.
Proof.
  apply (safe_reading_keeps_level_streaks_zero literal_float sample_monitor
           (pressure_row "P1" "25") empty_dicts "P1" (float_of_Z 25)).
  all: vm_compute; reflexivity.
Defined.

(** A reading equal to the low threshold 19, after one above the high
    threshold: the high streak stays at 1. *)
Lemma threshold_reading_keeps_level_streaks_witness :
  let st := feed sample_monitor [pressure_row "P1" "33"] empty_dicts in
  let v := float_of_Z 19 in
  float_gt v (HIGH sample_monitor) = false ∧
  float_lt v (LOW sample_monitor) = false ∧
  float_gt v (LOW sample_monitor) && float_lt v (HIGH sample_monitor) = false ∧
  let st' := (transition literal_float sample_monitor (pressure_row "P1" "19") st).1 in
  high_counts st' = high_counts st ∧ low_counts st' = low_counts st.
Proof.
  apply (threshold_reading_keeps_level_streaks literal_float sample_monitor
           (pressure_row "P1" "19") _ "P1" (float_of_Z 19)).
  - vm_compute. reflexivity.
  - vm_compute. reflexivity.
  - left. vm_compute. reflexivity.
Defined.

(** C5 as stated fails when the thresholds are crossed: a reading equal to
    the low threshold 5 is above the high threshold 3, the too-high check
    fires and the high streak of the entity goes from 0 to 1. *)
Lemma threshold_reading_counted_when_thresholds_cross :
  let ev := pressure_row "P1" "5" in
  let v := float_of_Z 5 in
  let r := transition literal_float crossed_monitor ev empty_dicts in
  reading literal_float ev = Some ("P1", v) ∧
  float_eq v (LOW crossed_monitor) = true ∧
  ¬ (float_gt v (HIGH crossed_monitor) = false ∧
     get (high_counts r.1) "P1" = get (high_counts empty_dicts) "P1").
Proof.
  simpl. split; [by vm_compute|]. split; [by vm_compute|].
  intros [H _]. vm_compute in H. discriminate.
Defined.

(** After a reading of 0, a reading of 25 is not seen as a rise. *)
Lemma zero_previous_value_is_no_previous_value_witness :
  let st := feed sample_monitor [pressure_row "P1" "0"] empty_dicts in
  let ev := pressure_row "P1" "25" in
  transition literal_float sample_monitor ev st
    = transition literal_float sample_monitor ev (set_prev_value (delete "P1") st) ∧
  up_counts (transition literal_float sample_monitor ev st).1 = up_counts st ∧
  down_counts (transition literal_float sample_monitor ev st).1 = down_counts st.
Proof.
  apply (zero_previous_value_is_no_previous_value literal_float sample_monitor
           (pressure_row "P1" "25") _ "P1" (float_of_Z 25) (S754_zero false)).
  all: vm_compute; reflexivity.
Defined.

(** C1 as stated fails on the second report of a lasting condition: with a
    tolerance of 0 the high streak of "P1" is already 1 when the reading 12
    arrives; the call returns the too-high error for a streak of 2, and no
    counter of any entity goes from the tolerance to the tolerance plus
    one. *)
Lemma violation_without_first_crossing :
  let st := feed strict_monitor [pressure_row "P1" "11"] empty_dicts in
  let r := transition literal_float strict_monitor (pressure_row "P1" "12") st in
  r.2 = Returned (Some (WasTooHigh "P1" (2 * FREQ))) ∧
  ¬ ∃ pdm_id c,
      Z.of_nat (get (counts c st) pdm_id) = MAX_UNSAFE strict_monitor ∧
      get (counts c r.1) pdm_id = S (get (counts c st) pdm_id).
Proof.
  simpl. split; [by vm_compute|].
  intros (i & c & H1 & H2).
  destruct (decide (i = "P1")) as [->|Hne].
  - destruct c; vm_compute in H1, H2; discriminate.
  - destruct (transition_frame literal_float strict_monitor
                (pressure_row "P1" "12")
                (feed strict_monitor [pressure_row "P1" "11"] empty_dicts)
                "P1" i) as (Hl & Hh & Hu & Hd & _); [by vm_compute|done|].
    simpl in Hl, Hh, Hu, Hd.
    destruct c; unfold get in H2; simpl in H2;
      rewrite ?Hl, ?Hh, ?Hu, ?Hd in H2; lia.
Defined.

(** With a tolerance of 0, the reading 12 after 5 is both above the high
    threshold and a rise of 7: the too-high error is returned and the
    rising streak is not counted. *)
Lemma first_violation_ends_the_reading_witness :
  let st := feed strict_monitor [pressure_row "P1" "5"] empty_dicts in
  let r := transition literal_float strict_monitor (pressure_row "P1" "12") st in
  ∃ pdm_id v,
    reading literal_float (pressure_row "P1" "12") = Some (pdm_id, v) ∧
    prev_value r.1 = <[pdm_id := v]> (prev_value st) ∧
    high_counts r.1
      = <[pdm_id := S (get (high_counts st) pdm_id)]> (high_counts st) ∧
    low_counts r.1 = low_counts st ∧
    up_counts r.1 = up_counts st ∧
    down_counts r.1 = down_counts st.
Proof.
  simpl.
  apply (proj2 (first_violation_ends_the_reading literal_float strict_monitor
                  (pressure_row "P1" "12")
                  (feed strict_monitor [pressure_row "P1" "5"] empty_dicts))
           (WasTooHigh "P1" (1 * FREQ))).
  vm_compute. reflexivity.
Defined.

(** With a tolerance of 0, the readings 2, 4, 6, 8 rise by 2 each time and
    stay in the safe band: 4 is reported for a streak of 1, then 6 for a
    streak of 2 and 8 for a streak of 3. *)
Lemma violation_is_repeated_while_streak_lasts_witness :
  let st := feed strict_monitor [pressure_row "P1" "2"] empty_dicts in
  let r := transition literal_float strict_monitor (pressure_row "P1" "4") st in
  get (up_counts r.1) "P1" = 1 ∧
  reported_each_time literal_float strict_monitor Increased "P1" 1 r.1
    [pressure_row "P1" "6"; pressure_row "P1" "8"].
Proof.
  simpl.
  assert ((transition literal_float strict_monitor (pressure_row "P1" "4")
             (feed strict_monitor [pressure_row "P1" "2"] empty_dicts)).2
          = Returned (Some (report strict_monitor Increased "P1" 1))) as He
    by (vm_compute; reflexivity).
  destruct (violation_is_repeated_while_streak_lasts literal_float
              strict_monitor Increased "P1" 1 _ _
              [pressure_row "P1" "6"; pressure_row "P1" "8"] He)
    as (Hc & _ & Hrun).
  split; [exact Hc|]. apply Hrun. clear Hc Hrun He.
  assert (∀ o e, o = Returned (Some e) → condition_of e = Increased →
            ¬ preempted Increased o) as Hno.
  { intros o e -> Hcond (e' & [= <-] & Hrank). rewrite Hcond in Hrank.
    simpl in Hrank. lia. }
  repeat split.
  - exists (float_of_Z 6). repeat split; vm_compute; reflexivity.
  - eapply Hno; vm_compute; reflexivity.
  - exists (float_of_Z 8). repeat split; vm_compute; reflexivity.
  - eapply Hno; vm_compute; reflexivity.
Defined.

(** C3 as stated fails for a rate condition that a level condition
    overtakes. With a tolerance of 0, the reading 8 after 5 returns the
    "increased" error for a streak of 1. The next reading, 11, rises by 3
    again, but it is also above the high threshold 10: the call returns the
    too-high error for a streak of 1 and the rising streak stays at 1. *)
Lemma rising_report_overtaken_by_high :
  let st := feed strict_monitor [pressure_row "P1" "5"] empty_dicts in
  let r := transition literal_float strict_monitor (pressure_row "P1" "8") st in
  let r' := transition literal_float strict_monitor (pressure_row "P1" "11") r.1 in
  r.2 = Returned (Some (report strict_monitor Increased "P1" 1)) ∧
  reading literal_float (pressure_row "P1" "11") = Some ("P1", float_of_Z 11) ∧
  violates strict_monitor Increased (prev_value r.1 !! "P1") (float_of_Z 11) = true ∧
  r'.2 = Returned (Some (WasTooHigh "P1" (1 * FREQ))) ∧
  get (up_counts r'.1) "P1" = 1 ∧
  ¬ (∃ c, r'.2 = Returned (Some (report strict_monitor c "P1" 2))).
Proof.
  simpl. repeat split; try (vm_compute; reflexivity).
  intros [c H]. vm_compute in H. destruct c; discriminate.
Defined.

(** With a tolerance of 3, the reading 22 after 20 starts a rising streak
    and is not reported. *)
Lemma rising_check_witness :
  let st := feed sample_monitor [pressure_row "P1" "20"] empty_dicts in
  let r := transition literal_float sample_monitor (pressure_row "P1" "22") st in
  r.2 = Returned None ∧
  get (up_counts r.1) "P1" = 1 ∧ get (down_counts r.1) "P1" = 0.
Proof.
  simpl.
  assert (¬ preempted Increased
            (transition literal_float sample_monitor (pressure_row "P1" "22")
               (feed sample_monitor [pressure_row "P1" "20"] empty_dicts)).2)
    as Hpre.
  { intros (e & He & _). vm_compute in He. discriminate. }
  pose proof (rising_check literal_float sample_monitor
                (pressure_row "P1" "22")
                (feed sample_monitor [pressure_row "P1" "20"] empty_dicts)
                "P1" (float_of_Z 22) (float_of_Z 20)
                ltac:(vm_compute; reflexivity) ltac:(vm_compute; reflexivity)
                ltac:(vm_compute; reflexivity) ltac:(vm_compute; reflexivity)
                Hpre) as H.
  vm_compute in H. vm_compute. exact H.
Defined.

(** C4 as stated fails when the too-high check returns first. With a
    tolerance of 0 and the previous value 8 stored, the reading 11 rises by
    3, above the allowed change 1, but it is above the high threshold 10:
    the call returns the too-high error and the rising streak is not
    incremented. *)
Lemma rising_not_counted_after_high_error :
  let st := feed strict_monitor [pressure_row "P1" "5"; pressure_row "P1" "8"]
              empty_dicts in
  let ev := pressure_row "P1" "11" in
  let r := transition literal_float strict_monitor ev st in
  reading literal_float ev = Some ("P1", float_of_Z 11) ∧
  prev_value st !! "P1" = Some (float_of_Z 8) ∧
  float_gt (float_sub (float_of_Z 11) (float_of_Z 8)) (MAX_DELTA strict_monitor) = true ∧
  r.2 = Returned (Some (WasTooHigh "P1" (1 * FREQ))) ∧
  ¬ (get (up_counts r.1) "P1" = S (get (up_counts st) "P1")).
Proof.
  simpl. repeat split; try (vm_compute; reflexivity).
  intros H. vm_compute in H. discriminate.
Defined.


(** Two monitors, one set of dictionaries: the first monitor, with a
    tolerance of 3, counts one reading above its high threshold; the second,
    constructed afterwards with a tolerance of 1, reports a streak of 2 on
    the first reading it is given. *)
Example second_monitor_continues_first_streak :
  let '(m1, w1) := new_Pressure (float_of_Z 19) (float_of_Z 32) (float_of_Z 1) 3
                     initial_world in
  let w2 := {| class_attrs := feed sample_monitor [pressure_row "P1" "33"] empty_dicts;
               instances := instances w1 |} in
  call_transition literal_float m1 (pressure_row "P1" "33") w1
    = Some (w2, Returned None) ∧
  let '(m2, w3) := new_Pressure (float_of_Z 19) (float_of_Z 32) (float_of_Z 1) 1
                     w2 in
  snd <$> call_transition literal_float m2 (pressure_row "P1" "34") w3
    = Some (Returned (Some (WasTooHigh "P1" (2 * FREQ)))).
Proof. split; vm_compute; reflexivity. Qed.

(** ** The scenarios of the specification, with the thresholds and the
    readings scaled to integers *)

(** Four readings above the high threshold: nothing for the first three,
    then the too-high error for a streak of 4. *)
Example scenario_too_high :
  let rows := [pressure_row "P1" "33"; pressure_row "P1" "34";
               pressure_row "P1" "35"; pressure_row "P1" "36"] in
  outcomes sample_monitor rows empty_dicts
    = [Returned None; Returned None; Returned None;
       Returned (Some (WasTooHigh "P1" (4 * FREQ)))] ∧
  get (high_counts (feed sample_monitor rows empty_dicts)) "P1" = 4.
Proof. split; vm_compute; reflexivity. Qed.

(** A reading back in the safe band resets the high streak. *)
Example scenario_back_in_band :
  let rows := [pressure_row "P1" "33"; pressure_row "P1" "25"] in
  outcomes sample_monitor rows empty_dicts = [Returned None; Returned None] ∧
  get (high_counts (feed sample_monitor [pressure_row "P1" "33"] empty_dicts)) "P1" = 1 ∧
  get (high_counts (feed sample_monitor rows empty_dicts)) "P1" = 0.
Proof. repeat split; vm_compute; reflexivity. Qed.

(** Readings rising by 2 each time: the first has no previous value, the
    rising streak is 3 after four readings, and the fifth is reported. Rows
    of another kind in between change nothing. *)
Example scenario_rising :
  let rows := [pressure_row "P1" "20"; pressure_row "P1" "22";
               row "P1" "Portata" "99";
               pressure_row "P1" "24"; pressure_row "P1" "26"] in
  outcomes sample_monitor rows empty_dicts
    = [Returned None; Returned None; Returned None; Returned None;
       Returned None] ∧
  get (up_counts (feed sample_monitor rows empty_dicts)) "P1" = 3 ∧
  outcomes sample_monitor [pressure_row "P1" "28"]
    (feed sample_monitor rows empty_dicts)
    = [Returned (Some (IncreasedByOver "P1" (float_of_Z 1) (4 * FREQ)))].
Proof. repeat split; vm_compute; reflexivity. Qed.

(** A row without the column of the identifier, and a cell that is not a
    number: the call raises and writes nothing. *)
Example malformed_rows_raise :
  let st := feed sample_monitor [pressure_row "P1" "33"] empty_dicts in
  transition literal_float sample_monitor
    (<["Tipo Grandezza" := "Pressione a valle"]> (<["Valore" := "33"]> ∅)) st
    = (st, Raised (KeyError "ID")) ∧
  transition literal_float sample_monitor (pressure_row "P1" "n/a") st
    = (st, Raised (ValueError "n/a")).
Proof. split; vm_compute; reflexivity. Qed.

(** * Further properties of the monitor and of the program *)

(** Writing a key removes none. *)
Lemma dom_insert_grows {A} (d : gmap string A) key x (keys : gset string) :
  keys ⊆ dom d → keys ⊆ dom (<[key := x]> d).
Proof. rewrite dom_insert_L. set_solver. Qed.

Section CallFacts.
Variable py_float : string → option float.

(** X1. The method raises exactly on a malformed row, and then it has
    written nothing: [KeyError] for the first missing column among the kind,
    then, for a row of the monitored kind, the identifier, then the value;
    [ValueError] when the three columns are there and [float()] rejects the
    value. A row of another kind never raises, whatever else it lacks. *)
Theorem raises_iff_malformed self ev st st' e :
  transition py_float self ev st = (st', Raised e) ↔
  st' = st ∧
  match e with
  | KeyError key =>
      ev !! key = None ∧
      (key = "Tipo Grandezza" ∨
       ev !! "Tipo Grandezza" = Some "Pressione a valle" ∧
       (key = "ID" ∨ key = "Valore" ∧ is_Some (ev !! "ID")))
  | ValueError raw =>
      ev !! "Tipo Grandezza" = Some "Pressione a valle" ∧
      is_Some (ev !! "ID") ∧ ev !! "Valore" = Some raw ∧ py_float raw = None
  end.
Proof.
  split.
  - destruct (reading py_float ev) as [[i v]|] eqn:Hr.
    { rewrite (transition_reading _ _ _ _ _ _ Hr).
      split_checks; intros [= _ H]; discriminate. }
    revert Hr. unfold reading, case_pattern, transition.
    destruct (ev !! "Tipo Grandezza") as [k|] eqn:Hk;
      [|intros _ [= <- <-]; eauto 10].
    destruct (String.eqb_spec k "Pressione a valle") as [->|]; simpl;
      [|by destruct (ev !! "ID"), (ev !! "Valore")].
    destruct (ev !! "ID") as [i|] eqn:Hi; [|intros _ [= <- <-]; eauto 10].
    destruct (ev !! "Valore") as [r|] eqn:Hv; [|intros _ [= <- <-]; eauto 10].
    destruct (py_float r) eqn:Hf; [done|intros _ [= <- <-]; eauto 10].
  - intros [-> H]. unfold transition. destruct e as [key|raw].
    + destruct H as [Hkey [->|[Hk [->|[-> [i Hi]]]]]].
      * by rewrite Hkey.
      * by rewrite Hk, Hkey.
      * by rewrite Hk, Hi, Hkey.
    + destruct H as (Hk & [i Hi] & Hv & Hf). by rewrite Hk, Hi, Hv, Hf.
Qed.

(** X2. A processed reading never raises, and its value becomes the stored
    previous value of its entity whatever the call returns, an error
    included; no other previous value changes. *)
Theorem reading_returns_and_is_remembered self ev st pdm_id v :
  reading py_float ev = Some (pdm_id, v) →
  let r := transition py_float self ev st in
  (∃ o, r.2 = Returned o) ∧
  prev_value r.1 = <[pdm_id := v]> (prev_value st).
Proof.
  intros Hr. simpl. rewrite (transition_reading _ _ _ _ _ _ Hr).
  split_checks; eauto.
Qed.

(** X3. One call increases no streak counter of any entity by more than
    one. *)
Theorem counter_grows_by_at_most_one self ev st c pdm_id :
  let st' := (transition py_float self ev st).1 in
  (get (counts c st') pdm_id ≤ S (get (counts c st) pdm_id))%nat.
Proof.
  simpl. destruct (reading py_float ev) as [[i v]|] eqn:Hr.
  - rewrite (transition_reading _ _ _ _ _ _ Hr).
    destruct (decide (i = pdm_id)) as [->|Hne].
    + split_checks; destruct c; norm_get; lia.
    + destruct (checks_frame self i pdm_id v (prev_value st !! i)
                  (set_prev_value (insert i v) st) Hne) as (Hl & Hh & Hu & Hd & _).
      simpl in Hl, Hh, Hu, Hd.
      destruct c; unfold get; simpl; rewrite ?Hl, ?Hh, ?Hu, ?Hd; lia.
  - destruct (transition_not_reading py_float self ev st Hr) as (o & -> & _).
    simpl. lia.
Qed.

(** X4. No call increments both the high and the low streak of an entity,
    nor both its rising and its falling streak, whatever the thresholds. *)
Theorem opposite_streaks_never_grow_together self ev st pdm_id :
  let st' := (transition py_float self ev st).1 in
  ¬ (get (high_counts st') pdm_id = S (get (high_counts st) pdm_id) ∧
     get (low_counts st') pdm_id = S (get (low_counts st) pdm_id)) ∧
  ¬ (get (up_counts st') pdm_id = S (get (up_counts st) pdm_id) ∧
     get (down_counts st') pdm_id = S (get (down_counts st) pdm_id)).
Proof.
  simpl. destruct (reading py_float ev) as [[i v]|] eqn:Hr.
  - rewrite (transition_reading _ _ _ _ _ _ Hr).
    destruct (decide (i = pdm_id)) as [->|Hne].
    + split_checks; gtb_facts; split; intros [H1 H2]; norm_get; lia.
    + destruct (checks_frame self i pdm_id v (prev_value st !! i)
                  (set_prev_value (insert i v) st) Hne) as (Hl & Hh & Hu & Hd & _).
      simpl in Hl, Hh, Hu, Hd. unfold get.
      rewrite Hl, Hh, Hu, Hd. lia.
  - destruct (transition_not_reading py_float self ev st Hr) as (o & -> & _).
    simpl. lia.
Qed.

(** X5. The method never removes a key: each of the five dictionaries
    keeps every entity it had. *)
Theorem keys_are_never_removed self ev st :
  let st' := (transition py_float self ev st).1 in
  dom (low_counts st) ⊆ dom (low_counts st') ∧
  dom (high_counts st) ⊆ dom (high_counts st') ∧
  dom (up_counts st) ⊆ dom (up_counts st') ∧
  dom (down_counts st) ⊆ dom (down_counts st') ∧
  dom (prev_value st) ⊆ dom (prev_value st').
Proof.
  simpl. destruct (reading py_float ev) as [[i v]|] eqn:Hr.
  - rewrite (transition_reading _ _ _ _ _ _ Hr).
    split_checks; repeat split; simpl; repeat apply dom_insert_grows; done.
  - by destruct (transition_not_reading py_float self ev st Hr) as (o & -> & _).
Qed.
End CallFacts.

Section CheckFacts.
Variable py_float : string → option float.

(** X6. A processed reading strictly inside the safe band, whatever the
    streaks were: if the call returns no error, the high and the low streak
    of the entity are stored as 0; if it returns an error, it is the one of
    a rate check, and the two dictionaries are not written. *)
Theorem safe_band_reset self ev st pdm_id v :
  reading py_float ev = Some (pdm_id, v) →
  float_gt v (LOW self) = true →
  float_lt v (HIGH self) = true →
  let r := transition py_float self ev st in
  match r.2 with
  | Returned (Some e) =>
      (condition_of e = Increased ∨ condition_of e = Decreased) ∧
      high_counts r.1 = high_counts st ∧ low_counts r.1 = low_counts st
  | _ =>
      high_counts r.1 !! pdm_id = Some 0 ∧ low_counts r.1 !! pdm_id = Some 0
  end.
Proof.
  intros Hr Hlo Hhi. simpl. rewrite (transition_reading _ _ _ _ _ _ Hr).
  pose proof (float_lt_not_gt _ _ Hhi) as Hnh.
  pose proof (float_lt_asym _ _ Hlo) as Hnl.
  change (float_lt v (LOW self) = false) in Hnl.
  assert (float_gt v (LOW self) && float_lt v (HIGH self) = true) as Hsafe
    by (by rewrite Hlo, Hhi).
  split_checks; try congruence.
  all: rewrite ?lookup_insert_eq; auto.
Qed.

(** X7. A processed reading whose change from a stored, non-zero previous
    value is within the allowed change in absolute value: if the call
    returns no error, the rising and the falling streak of the entity are
    stored as 0; an error, if one is returned, is not the rising one, and
    the rising streak is then not written. *)
Theorem stable_reading_resets_rate_streaks self ev st pdm_id v prev :
  reading py_float ev = Some (pdm_id, v) →
  prev_value st !! pdm_id = Some prev →
  truthy prev = true →
  float_le (float_abs (float_sub v prev)) (MAX_DELTA self) = true →
  let r := transition py_float self ev st in
  match r.2 with
  | Returned (Some e) =>
      condition_of e ≠ Increased ∧ up_counts r.1 = up_counts st
  | _ =>
      up_counts r.1 !! pdm_id = Some 0 ∧ down_counts r.1 !! pdm_id = Some 0
  end.
Proof.
  intros Hr Hp Ht Hst. simpl. rewrite (transition_reading _ _ _ _ _ _ Hr), Hp.
  assert (float_gt (float_sub v prev) (MAX_DELTA self) = false) as Hup.
  { destruct (float_gt (float_sub v prev) (MAX_DELTA self)) eqn:E; [|done].
    apply float_gt_abs in E. congruence. }
  split_checks; try congruence.
  all: rewrite ?lookup_insert_eq; auto.
Qed.

(** X8. A processed reading above the high threshold increments the high
    streak. Above the tolerance the call returns the too-high error for
    that streak and writes no other counter. Otherwise the low streak is
    reset to 0 and the high streak keeps the incremented value to the end of
    the call, unless the reading is also below the low threshold (crossed
    thresholds), which leaves the high streak at 0 and the low streak at
    1. *)
Theorem high_check self ev st pdm_id v :
  reading py_float ev = Some (pdm_id, v) →
  float_gt v (HIGH self) = true →
  let r := transition py_float self ev st in
  let count := S (get (high_counts st) pdm_id) in
  if (Z.of_nat count >? MAX_UNSAFE self)%Z then
    r.2 = Returned (Some (WasTooHigh pdm_id (count * FREQ))) ∧
    high_counts r.1 = <[pdm_id := count]> (high_counts st) ∧
    low_counts r.1 = low_counts st
  else if float_lt v (LOW self) then
    high_counts r.1 !! pdm_id = Some 0 ∧ low_counts r.1 !! pdm_id = Some 1
  else
    high_counts r.1 !! pdm_id = Some count ∧ low_counts r.1 !! pdm_id = Some 0.
Proof.
  intros Hr Hhi. simpl. rewrite (transition_reading _ _ _ _ _ _ Hr).
  pose proof (float_lt_asym _ _ Hhi) as Hnh.
  change (float_lt v (HIGH self) = false) in Hnh.
  assert (float_gt v (LOW self) && float_lt v (HIGH self) = false) as Hsafe
    by (rewrite Hnh; apply andb_false_r).
  split_checks; gtb_facts; try congruence; try lia.
  all: norm_get; rewrite ?lookup_insert_eq; auto; lia.
Qed.

(** X9. A processed reading below the low threshold and not above the high
    one increments the low streak. Above the tolerance the call returns the
    too-low error for that streak and does not write the high streak.
    Otherwise the low streak keeps the incremented value and the high streak
    is stored as 0 at the end of the call. *)
Theorem low_check self ev st pdm_id v :
  reading py_float ev = Some (pdm_id, v) →
  float_lt v (LOW self) = true →
  float_gt v (HIGH self) = false →
  let r := transition py_float self ev st in
  let count := S (get (low_counts st) pdm_id) in
  if (Z.of_nat count >? MAX_UNSAFE self)%Z then
    r.2 = Returned (Some (WasTooLow pdm_id (count * FREQ))) ∧
    low_counts r.1 = <[pdm_id := count]> (low_counts st) ∧
    high_counts r.1 = high_counts st
  else
    low_counts r.1 !! pdm_id = Some count ∧ high_counts r.1 !! pdm_id = Some 0.
Proof.
  intros Hr Hlo Hhi. simpl. rewrite (transition_reading _ _ _ _ _ _ Hr).
  pose proof (float_lt_asym _ _ Hlo) as Hnl.
  change (float_gt v (LOW self) = false) in Hnl.
  assert (float_gt v (LOW self) && float_lt v (HIGH self) = false) as Hsafe
    by (by rewrite Hnl).
  split_checks; gtb_facts; try congruence; try lia.
  all: norm_get; rewrite ?lookup_insert_eq; auto; lia.
Qed.

(** X10. A processed reading that falls from a stored, non-zero previous
    value by more than the allowed change, while the rising check does not
    fire and no level check returns its error, increments the falling
    streak. Above the tolerance the call returns the "decreased by over"
    error for that streak and does not write the rising streak. Otherwise
    the call returns [None], the rising streak is stored as 0 and the
    falling streak keeps the incremented value (0 if the stability reset
    fires as well). *)
Theorem falling_check self ev st pdm_id v prev :
  reading py_float ev = Some (pdm_id, v) →
  prev_value st !! pdm_id = Some prev →
  truthy prev = true →
  float_gt (float_sub prev v) (MAX_DELTA self) = true →
  float_gt (float_sub v prev) (MAX_DELTA self) = false →
  let r := transition py_float self ev st in
  ¬ preempted Increased r.2 →
  let count := S (get (down_counts st) pdm_id) in
  if (Z.of_nat count >? MAX_UNSAFE self)%Z then
    r.2 = Returned (Some (DecreasedByOver pdm_id (MAX_DELTA self) (count * FREQ))) ∧
    down_counts r.1 = <[pdm_id := count]> (down_counts st) ∧
    up_counts r.1 = up_counts st
  else
    r.2 = Returned None ∧
    if float_le (float_abs (float_sub v prev)) (MAX_DELTA self) then
      up_counts r.1 !! pdm_id = Some 0 ∧ down_counts r.1 !! pdm_id = Some 0
    else
      up_counts r.1 !! pdm_id = Some 0 ∧ down_counts r.1 !! pdm_id = Some count.
Proof.
  intros Hr Hp Ht Hdown Hup. simpl.
  rewrite (transition_reading _ _ _ _ _ _ Hr), Hp.
  unfold preempted.
  split_checks; intros Hpre; gtb_facts.
  all: try congruence.
  all: try (exfalso; apply Hpre; eexists; split; [reflexivity|simpl; lia]).
  all: norm_get; rewrite ?lookup_insert_eq; repeat split; try done; try lia.
Qed.
End CheckFacts.

(** No comparison with a NaN holds. *)
Lemma nan_compares_false x :
  float_gt S754_nan x = false ∧ float_lt S754_nan x = false ∧
  float_le S754_nan x = false.
Proof. by destruct x as [[]|[]| |[]]. Qed.

(** A difference with a NaN on either side is a NaN. *)
Lemma float_sub_nan x :
  float_sub x S754_nan = S754_nan ∧ float_sub S754_nan x = S754_nan.
Proof. by destruct x as [[]|[]| |[]]. Qed.

Section EdgeFacts.
Variable py_float : string → option float.

(** X11. A reading whose value is a NaN, which [float("nan")] produces,
    fires no check and no reset: the call returns [None], the four counter
    dictionaries are untouched and the NaN is stored as the previous
    value. *)
Theorem nan_reading_counts_nothing self ev st pdm_id :
  reading py_float ev = Some (pdm_id, S754_nan) →
  transition py_float self ev st
    = (set_prev_value (insert pdm_id S754_nan) st, Returned None).
Proof.
  intros Hr. rewrite (transition_reading _ _ _ _ _ _ Hr).
  unfold_checks.
  destruct (nan_compares_false (HIGH self)) as (-> & Hlt & _).
  destruct (nan_compares_false (LOW self)) as (-> & -> & _). rewrite Hlt.
  destruct (nan_compares_false (MAX_DELTA self)) as (Hgt & _ & Hle).
  simpl.
  destruct (prev_value st !! pdm_id) as [p|]; [destruct (truthy p) eqn:Hp|].
  all: simpl; try reflexivity.
  destruct (float_sub_nan p) as [-> ->].
  change (float_abs S754_nan) with S754_nan. by rewrite ?Hgt, ?Hle.
Qed.

(** X12. When the entity has no stored previous value, or a NaN, the
    reading writes neither the rising nor the falling dictionary, and an
    error, if one is returned, is a level error. *)
Theorem no_usable_previous_value self ev st pdm_id v :
  reading py_float ev = Some (pdm_id, v) →
  (∀ prev, prev_value st !! pdm_id = Some prev → prev = S754_nan) →
  let r := transition py_float self ev st in
  up_counts r.1 = up_counts st ∧ down_counts r.1 = down_counts st ∧
  ∀ e, r.2 = Returned (Some e) →
    condition_of e = TooHigh ∨ condition_of e = TooLow.
Proof.
  intros Hr Hp. simpl. rewrite (transition_reading _ _ _ _ _ _ Hr).
  destruct (float_sub_nan v) as [Hs1 Hs2].
  destruct (nan_compares_false (MAX_DELTA self)) as (Hgt & _ & Hle).
  destruct (prev_value st !! pdm_id) as [p|]; [rewrite (Hp p eq_refl)|];
    unfold_checks; simpl;
    rewrite ?Hs1, ?Hs2, ?Hgt; change (float_abs S754_nan) with S754_nan;
    rewrite ?Hle.
  all: split_checks; repeat split; try done; intros e [= <-]; simpl; auto.
Qed.
End EdgeFacts.

Section EntityFacts.
Variable py_float : string → option float.

(** What a call gives back and what it leaves for the entity of the reading
    are determined by what the dictionaries held for that entity. *)
Lemma transition_local self ev st1 st2 pdm_id v :
  reading py_float ev = Some (pdm_id, v) →
  entry st1 pdm_id = entry st2 pdm_id →
  let r1 := transition py_float self ev st1 in
  let r2 := transition py_float self ev st2 in
  r1.2 = r2.2 ∧ entry r1.1 pdm_id = entry r2.1 pdm_id.
Proof.
  intros Hr [= Hl Hh Hu Hd Hp]. simpl.
  rewrite !(transition_reading _ _ _ _ _ _ Hr). rewrite Hp.
  unfold entry. unfold_checks.
  repeat (simpl; unfold get; rewrite ?lookup_insert_eq, ?Hl, ?Hh, ?Hu, ?Hd;
          match goal with
          | |- context [match ?x with _ => _ end] =>
              lazymatch x with
              | context [match _ with _ => _ end] => fail
              | _ => destruct x eqn:?
              end
          end).
  all: simpl; by rewrite ?lookup_insert_eq, ?Hl, ?Hh, ?Hu, ?Hd.
Qed.

(** A reading of one entity leaves the entry of another. *)
Lemma entry_frame self ev st A B v :
  reading py_float ev = Some (A, v) →
  A ≠ B →
  entry (transition py_float self ev st).1 B = entry st B.
Proof.
  intros (value & _ & _ & Hid & _)%reading_inv Hne.
  destruct (transition_frame py_float self ev st A B Hid Hne)
    as (Hl & Hh & Hu & Hd & Hp).
  unfold entry. simpl in *. by rewrite Hl, Hh, Hu, Hd, Hp.
Qed.

(** Dictionaries with the same entries are the same dictionaries. *)
Lemma entry_ext st1 st2 :
  (∀ pdm_id, entry st1 pdm_id = entry st2 pdm_id) → st1 = st2.
Proof.
  intros H. destruct st1 as [l1 h1 u1 d1 p1], st2 as [l2 h2 u2 d2 p2].
  f_equal; apply map_eq; intros k; specialize (H k); by injection H.
Qed.

(** X13. What a processed reading returns, and what it leaves stored for
    its entity, depend only on what was stored for that entity: two states
    of the dictionaries with the same five entries for the entity give the
    same outcome and the same five entries afterwards. *)
Theorem outcome_depends_on_own_entry self ev st1 st2 pdm_id v :
  reading py_float ev = Some (pdm_id, v) →
  entry st1 pdm_id = entry st2 pdm_id →
  let r1 := transition py_float self ev st1 in
  let r2 := transition py_float self ev st2 in
  r1.2 = r2.2 ∧ entry r1.1 pdm_id = entry r2.1 pdm_id.
Proof. apply transition_local. Qed.

(** X14. Readings of two different entities commute: processed in either
    order they leave the same dictionaries, and each call returns the same
    outcome in both orders. *)
Theorem readings_of_two_entities_commute self evA evB st A B vA vB :
  reading py_float evA = Some (A, vA) →
  reading py_float evB = Some (B, vB) →
  A ≠ B →
  let rA := transition py_float self evA st in
  let rAB := transition py_float self evB rA.1 in
  let rB := transition py_float self evB st in
  let rBA := transition py_float self evA rB.1 in
  rAB.1 = rBA.1 ∧ rA.2 = rBA.2 ∧ rB.2 = rAB.2.
Proof.
  intros HA HB Hne. simpl.
  pose proof (entry_frame self evA st A B vA HA Hne) as HfA.
  pose proof (entry_frame self evB st B A vB HB (not_eq_sym Hne)) as HfB.
  destruct (transition_local self evA st (transition py_float self evB st).1
              A vA HA (eq_sym HfB)) as [HoA HeA].
  destruct (transition_local self evB st (transition py_float self evA st).1
              B vB HB (eq_sym HfA)) as [HoB HeB].
  repeat split; [|done..].
  apply entry_ext. intros k.
  destruct (decide (k = A)) as [->|HkA]; [|destruct (decide (k = B)) as [->|HkB]].
  - rewrite (entry_frame self evB _ B A vB HB (not_eq_sym Hne)). exact HeA.
  - rewrite (entry_frame self evA _ A B vA HA Hne). by rewrite HeB.
  - rewrite !(entry_frame self evB _ B k vB HB) by done.
    rewrite !(entry_frame self evA _ A k vA HA) by done.
    by rewrite (entry_frame self evB _ B k vB HB) by done.
Qed.
End EntityFacts.

Section RunFacts.
Variable py_float : string → option float.

Lemma other_kind_skipped self ev st :
  other_kind ev = true → transition py_float self ev st = (st, Returned None).
Proof.
  unfold other_kind, transition.
  destruct (ev !! "Tipo Grandezza") as [k|]; [|done]. by intros ->.
Qed.

(** X15. Rows of other kinds can be dropped from a run: the dictionaries
    at the end, the errors returned and the exception that ends the run, if
    any, are the same with and without them. *)
Theorem rows_of_other_kinds_can_be_dropped self rows st :
  run py_float self (List.filter (λ ev, negb (other_kind ev)) rows) st
    = run py_float self rows st.
Proof.
  revert st. induction rows as [|ev rows IH]; intros st; [done|].
  simpl. destruct (other_kind ev) eqn:Hk; simpl.
  - rewrite (other_kind_skipped self ev st Hk). simpl.
    rewrite IH. by destruct (run py_float self rows st) as [[??]?].
  - destruct (transition py_float self ev st) as [st' [e|o]]; simpl; [done|].
    by rewrite IH.
Qed.

(** One call from a quiet state. *)
Lemma quiet_step self ev st :
  quiet self st →
  let r := transition py_float self ev st in
  match r.2 with
  | Returned (Some e) =>
      ∃ c pdm_id count,
        e = report self c pdm_id count ∧
        Z.of_nat count = (MAX_UNSAFE self + 1)%Z ∧
        get (counts c r.1) pdm_id = count
  | _ => quiet self r.1
  end.
Proof.
  intros Hq. simpl. destruct (reading py_float ev) as [[i v]|] eqn:Hr.
  - rewrite (transition_reading _ _ _ _ _ _ Hr).
    pose proof (Hq TooHigh i) as Hh. pose proof (Hq TooLow i) as Hl.
    pose proof (Hq Increased i) as Hu. pose proof (Hq Decreased i) as Hd.
    simpl in Hh, Hl, Hu, Hd.
    assert (∀ st', (∀ c, (Z.of_nat (get (counts c st') i) ≤ MAX_UNSAFE self)%Z) →
              (∀ c k, i ≠ k → counts c st' !! k = counts c st !! k) →
              quiet self st') as Hquiet.
    { intros st' H1 H2 c k. destruct (decide (k = i)) as [->|Hne]; [done|].
      unfold get. rewrite (H2 c k) by done. apply Hq. }
    split_checks; gtb_facts.
    all: try (apply Hquiet;
              [intros []; norm_get; lia
              |intros [] k Hk; simpl; by rewrite ?lookup_insert_ne]).
    all: first
      [ refine (ex_intro _ TooHigh (ex_intro _ i (ex_intro _ _
                  (conj _ (conj _ eq_refl))))); norm_get; (done || lia)
      | refine (ex_intro _ TooLow (ex_intro _ i (ex_intro _ _
                  (conj _ (conj _ eq_refl))))); norm_get; (done || lia)
      | refine (ex_intro _ Increased (ex_intro _ i (ex_intro _ _
                  (conj _ (conj _ eq_refl))))); norm_get; (done || lia)
      | refine (ex_intro _ Decreased (ex_intro _ i (ex_intro _ _
                  (conj _ (conj _ eq_refl))))); norm_get; (done || lia) ].
  - destruct (transition_not_reading py_float self ev st Hr) as (o & -> & Ho).
    simpl. destruct o as [|[e|]]; try done. by destruct (Ho e).
Qed.

(** X16. In a run that starts with no counter above the tolerance, as a
    new class does when the tolerance is not negative, the first error
    returned reports a streak of exactly [MAX_UNSAFE + 1]. *)
Theorem first_error_is_one_past_tolerance self rows st st' e errors raised :
  quiet self st →
  run py_float self rows st = (st', e :: errors, raised) →
  ∃ c pdm_id count,
    e = report self c pdm_id count ∧
    Z.of_nat count = (MAX_UNSAFE self + 1)%Z.
Proof.
  revert st st' errors raised.
  induction rows as [|ev rows IH]; intros st st' errors raised Hq; [done|].
  simpl. pose proof (quiet_step self ev st Hq) as Hstep. simpl in Hstep.
  destruct (transition py_float self ev st) as [s [x|[e'|]]]; simpl in *.
  - done.
  - destruct (run py_float self rows s) as [[s' l] x]. intros [= _ <- _ _].
    destruct Hstep as (c & i & n & ? & ? & _). eauto.
  - destruct (run py_float self rows s) as [[s' l] x] eqn:Hrun. intros [= <- -> <-].
    eapply IH; eauto.
Qed.

(** X17. As long as a run that starts with no counter above the tolerance
    has returned no error, no counter is above the tolerance. *)
Theorem quiet_while_no_error self rows st st' raised :
  quiet self st →
  run py_float self rows st = (st', [], raised) →
  quiet self st'.
Proof.
  revert st st' raised.
  induction rows as [|ev rows IH]; intros st st' raised Hq; simpl.
  - by intros [= <- _].
  - pose proof (quiet_step self ev st Hq) as Hstep. simpl in Hstep.
    destruct (transition py_float self ev st) as [s [x|[e'|]]]; simpl in *.
    + by intros [= <- _].
    + by destruct (run py_float self rows s) as [[??]?].
    + destruct (run py_float self rows s) as [[s' l] x] eqn:Hrun.
      intros [= <- -> <-]. eapply IH; eauto.
Qed.
End RunFacts.

Lemma endswith_spec s suffix :
  endswith s suffix = true ↔ ∃ stem, s = stem +:+ suffix.
Proof.
  split.
  - induction s as [|c s IH]; cbn [endswith].
    + destruct (String.eqb_spec "" suffix) as [<-|]; [by exists ""|done].
    + destruct (String.eqb_spec (String c s) suffix) as [<-|]; [by exists ""|].
      intros [stem ->]%IH. by exists (String c stem).
  - intros [stem ->]. induction stem as [|c stem IH].
    + change ("" +:+ suffix) with suffix.
      destruct suffix; cbn [endswith]; by rewrite String.eqb_refl.
    + change (String c stem +:+ suffix) with (String c (stem +:+ suffix)).
      cbn [endswith]. rewrite IH. by destruct (String.eqb _ _).
Qed.

Lemma evaluated_app t1 t2 :
  evaluated (t1 ++ t2) = (evaluated t1 ++ evaluated t2)%list.
Proof. apply omap_app. Qed.

Lemma ends_app t1 t2 : ends (t1 ++ t2) = ends t1 + ends t2.
Proof. unfold ends. by rewrite List.filter_app, List.length_app. Qed.

Lemma evaluated_row ev t :
  evaluated (PrintEvent ev :: Eval ev :: t) = ev :: evaluated t.
Proof. reflexivity. Qed.

Lemma ends_row ev t : ends (PrintEvent ev :: Eval ev :: t) = ends t.
Proof. reflexivity. Qed.

Section ProgramFacts.
Variables (M E : Type).
Variable monitor_new : float → float → float → Z → M.
Variable monitor_eval : event → M → M * option E.
Variable monitor_end : M → M * option E.
Variable room : nat.

(** X18. While the stack has room, [get_next_input] asks until the answer
    is empty or "q". Every other answer gets the prompt and the complaint
    once. On the empty answer the call returns and the monitor is left
    alone; on "q" it prints the farewell, calls [monitor.end] and, unless
    that raises, exits with code 0; if the input runs out first, [input()]
    raises [EOFError]. The answers after the decisive one are left unread.
    When the unaccepted answers are as many as the stack has room for
    activations, the call raises [RecursionError] after the last complaint:
    it asks no more, and the monitor is not ended. *)
Theorem get_next_input_waits_for_enter_or_q depth bad rest m :
  Forall (λ resp, resp ≠ "q" ∧ resp ≠ "") bad →
  let retries := flat_map (λ _, [ask; complain]) bad in
  (List.length bad < depth →
   get_next_input M E monitor_end depth (bad ++ "" :: rest) m
     = ((retries ++ [ask])%list, Falls E, rest, m) ∧
   get_next_input M E monitor_end depth (bad ++ "q" :: rest) m
     = ((retries ++ [ask; Print "Exiting monitor..."; End])%list,
        match (monitor_end m).2 with
        | Some e => EndRaises E e
        | None => Exits E 0
        end, rest, (monitor_end m).1) ∧
   get_next_input M E monitor_end depth bad m
     = ((retries ++ [ask])%list, EOFError E, [], m)) ∧
  (List.length bad = depth →
   get_next_input M E monitor_end depth (bad ++ rest) m
     = (retries, RecursionError E, rest, m)).
Proof.
  intros Hbad. revert depth.
  induction Hbad as [|resp bad [Hq He] _ IH]; intros depth; simpl.
  - split.
    + intros Hlt. destruct depth as [|depth]; [lia|]. simpl.
      by destruct (monitor_end m) as [m' [e|]].
    + by intros <-.
  - destruct depth as [|depth]; [split; intros; simpl in *; lia|].
    cbn [get_next_input].
    destruct (String.eqb_spec resp "q"); [done|].
    destruct (String.eqb_spec resp ""); [done|]. cbn [negb].
    destruct (IH depth) as [IH1 IH2]. split.
    + intros Hlt. destruct IH1 as (-> & -> & ->); [lia|done].
    + intros [= Hlen]. by rewrite (IH2 Hlen).
Qed.

(** What one call of [get_next_input] contributes. *)
Lemma get_next_input_trace depth stdin m :
  let '(t, e, _, _) := get_next_input M E monitor_end depth stdin m in
  evaluated t = [] ∧
  (e = Falls E ∧ ends t = 0 ∨ e = Exits E 0 ∧ ends t = 1 ∨
   (∃ x, e = EndRaises E x) ∧ ends t = 1 ∨
   e = EOFError E ∧ ends t = 0 ∨ e = RecursionError E ∧ ends t = 0).
Proof.
  revert stdin. induction depth as [|depth IH]; intros stdin; simpl; [auto 10|].
  destruct stdin as [|resp stdin]; [auto 10|].
  destruct (String.eqb resp "q").
  { destruct (monitor_end m) as [m' [x|]]; eauto 10. }
  destruct (String.eqb resp ""); simpl; [auto 10|].
  specialize (IH stdin).
  by destruct (get_next_input M E monitor_end depth stdin m) as [[[t e] rest] m'].
Qed.

Lemma read_loop_trace a line_count items stdin m :
  let '(t, e, _, _) :=
    read_loop M E monitor_eval monitor_end room a line_count items stdin m in
  evaluated t `prefix_of` omap id (rows_left a line_count items) ∧
  (e = Falls E → evaluated t = omap id (rows_left a line_count items)) ∧
  ends t = (match e with Exits _ 0 | EndRaises _ _ => 1 | _ => 0 end) ∧
  e ≠ Exits E 1.
Proof.
  revert line_count stdin m.
  induction items as [|item items IH]; intros c stdin m.
  { simpl. unfold rows_left. destruct (max_lines a); rewrite ?take_nil; eauto 10. }
  cbn [read_loop].
  assert (rows_left a c (item :: items) =
          if match max_lines a with
             | Some n => (c + 1 >? n)%Z
             | None => false
             end
          then [] else item :: rows_left a (c + 1) items) as ->.
  { unfold rows_left. destruct (max_lines a) as [n|]; [|done].
    destruct (Z.gtb_spec (c + 1) n).
    - by replace (Z.to_nat (n - c)) with 0 by lia.
    - replace (Z.to_nat (n - c)) with (S (Z.to_nat (n - (c + 1)))) by lia. done. }
  destruct (match max_lines a with Some n => (c + 1 >? n)%Z | None => false end).
  { simpl. eauto 10. }
  destruct item as [ev|]; [|apply IH].
  assert (∀ t1 stdin1 m1, evaluated t1 = [] → ends t1 = 0 →
    let '(t, e, _, _) :=
      (let '(m2, raised) := monitor_eval ev m1 in
       match raised with
       | Some e =>
           ((t1 ++ [PrintEvent ev; Eval ev])%list, EvalRaises E e, stdin1, m2)
       | None =>
           let '(t, e, rest, m') :=
             read_loop M E monitor_eval monitor_end room a (c + 1) items
               stdin1 m2 in
           ((t1 ++ PrintEvent ev :: Eval ev :: t)%list, e, rest, m')
       end) in
    evaluated t `prefix_of` omap id (Some ev :: rows_left a (c + 1) items) ∧
    (e = Falls E → evaluated t = omap id (Some ev :: rows_left a (c + 1) items)) ∧
    ends t = (match e with Exits _ 0 | EndRaises _ _ => 1 | _ => 0 end) ∧
    e ≠ Exits E 1) as Hrow.
  { intros t1 stdin1 m1 Hev Hend.
    destruct (monitor_eval ev m1) as [m2 [x|]].
    - rewrite evaluated_app, ends_app, evaluated_row, ends_row, Hev, Hend.
      split_and!; try done. by apply prefix_cons, prefix_nil.
    - specialize (IH (c + 1)%Z stdin1 m2).
      destruct (read_loop M E monitor_eval monitor_end room a (c + 1) items
                  stdin1 m2) as [[[t e] rest] m'].
      destruct IH as (Hp & Hf & He & Hne).
      rewrite evaluated_app, ends_app, evaluated_row, ends_row, Hev, Hend.
      split_and!; try done.
      + by apply prefix_cons.
      + intros ->. by rewrite Hf. }
  destruct (online a) eqn:Hon; [|by apply (Hrow [] stdin m)].
  pose proof (get_next_input_trace room stdin m) as Hg.
  destruct (get_next_input M E monitor_end room stdin m) as [[[t1 e1] stdin1] m1].
  destruct Hg as [Hev [[-> Hend]|[[-> Hend]|[[[x ->] Hend]|[[-> Hend]|[-> Hend]]]]]].
  - by apply Hrow.
  - rewrite Hev. split_and!; try done. apply prefix_nil.
  - rewrite Hev. split_and!; try done. apply prefix_nil.
  - rewrite Hev. split_and!; try done. apply prefix_nil.
  - rewrite Hev. split_and!; try done. apply prefix_nil.
Qed.

(** X19. [main] exits with code 1 exactly when the name of the input file
    does not end in ".csv", and then all it has done is print the error
    line: no diagram, no introduction, no monitor, no row read. *)
Theorem main_requires_csv_name a items stdin :
  let r := main M E monitor_new monitor_eval monitor_end room a items stdin in
  (r.2 = Exits E 1 ↔ ¬ ∃ stem, infile a = stem +:+ ".csv") ∧
  (r = ([Print "Error: The input file must be a CSV."], Exits E 1) ↔
   ¬ ∃ stem, infile a = stem +:+ ".csv").
Proof.
  simpl. unfold main.
  destruct (endswith (infile a) ".csv") eqn:Hs; simpl.
  - apply endswith_spec in Hs.
    pose proof (read_loop_trace a 0 items stdin
                  (monitor_new (low a) (high a) (max_delta a) (max_unsafe a))) as H.
    destruct (read_loop _ _ _ _ _ _ _ _ _ _) as [[[t e] rest] m'].
    destruct H as (_ & _ & _ & Hne).
    destruct e; try destruct (monitor_end m').2; simpl; intuition congruence.
  - assert (¬ ∃ stem, infile a = stem +:+ ".csv") as Hno.
    { intros Hstem. apply endswith_spec in Hstem. congruence. }
    done.
Qed.

(** X20. The rows [main] hands to [monitor.eval] are, in order, a prefix of
    the rows the reader yields within the limit of [--max_lines], where a
    [None] yielded by the reader counts as a line and is skipped and a limit
    of 0 or less lets nothing through; when the program runs to its end
    they are all of them. *)
Theorem main_evaluates_rows_within_limit a items stdin :
  let r := main M E monitor_new monitor_eval monitor_end room a items stdin in
  evaluated r.1 `prefix_of` omap id (within_limit a items) ∧
  (r.2 = Falls E → evaluated r.1 = omap id (within_limit a items)).
Proof.
  simpl. unfold main.
  destruct (endswith (infile a) ".csv"); simpl;
    [|split; [apply prefix_nil|done]].
  pose proof (read_loop_trace a 0 items stdin
                (monitor_new (low a) (high a) (max_delta a) (max_unsafe a))) as H.
  destruct (read_loop _ _ _ _ _ _ _ _ _ _) as [[[t e] rest] m'].
  destruct H as (Hp & Hf & _).
  change (rows_left a 0 items) with (within_limit a items) in Hp, Hf.
  assert (∀ t', evaluated ((if visualize a then [Visualize] else []) ++
                           [PrintIntro a] ++ t')%list = evaluated t') as Hpre.
  { intros t'. rewrite evaluated_app. by destruct (visualize a). }
  assert (∀ tail, evaluated tail = [] →
            evaluated (((if visualize a then [Visualize] else []) ++
                        [PrintIntro a]) ++ t ++ tail)%list = evaluated t) as Hall.
  { intros tail Htail. rewrite <- app_assoc, (Hpre _), evaluated_app, Htail.
    apply app_nil_r. }
  destruct e; cbn [fst snd].
  - destruct (monitor_end m').2; cbn [fst snd].
    + rewrite (Hall [End]) by done. auto.
    + rewrite (Hall _) by (by destruct (memory a)). auto.
  - by rewrite <- app_assoc, (Hpre _).
  - by rewrite <- app_assoc, (Hpre _).
  - by rewrite <- app_assoc, (Hpre _).
  - by rewrite <- app_assoc, (Hpre _).
  - by rewrite <- app_assoc, (Hpre _).
Qed.

(** X21. [main] calls [monitor.end] exactly once when it runs to its end,
    when it is quit with "q" at a prompt, and when that one call of
    [monitor.end] itself raises; it does not call it at all when it exits
    on the file name, when the input runs out at a prompt, when the stack
    overflows on unaccepted answers, or when [monitor.eval] raises. *)
Theorem main_ends_monitor_once a items stdin :
  let r := main M E monitor_new monitor_eval monitor_end room a items stdin in
  ends r.1 = match r.2 with
             | Falls _ | Exits _ 0 | EndRaises _ _ => 1
             | _ => 0
             end.
Proof.
  simpl. unfold main.
  destruct (endswith (infile a) ".csv"); simpl; [|done].
  pose proof (read_loop_trace a 0 items stdin
                (monitor_new (low a) (high a) (max_delta a) (max_unsafe a))) as H.
  destruct (read_loop _ _ _ _ _ _ _ _ _ _) as [[[t e] rest] m'].
  destruct H as (_ & _ & He & _).
  destruct e; try destruct (monitor_end m').2; cbn [fst snd];
    rewrite !ends_app, ?He.
  all: by destruct (visualize a), (memory a); try destruct code.
Qed.

End ProgramFacts.

(** ** The further properties on sample inputs *)

(** The reading 12 after 5, reported as too high, is remembered as the
    previous value. *)
Lemma reading_returns_and_is_remembered_witness :
  let st := feed strict_monitor [pressure_row "P1" "5"] empty_dicts in
  let r := transition literal_float strict_monitor (pressure_row "P1" "12") st in
  (∃ o, r.2 = Returned o) ∧
  prev_value r.1 = <["P1" := float_of_Z 12]> (prev_value st).
Proof.
  apply (reading_returns_and_is_remembered literal_float strict_monitor
           (pressure_row "P1" "12") _ "P1" (float_of_Z 12)).
  vm_compute. reflexivity.
Defined.

(** After a reading above the high threshold, a reading in the safe band
    stores 0 for both level streaks. *)
Lemma safe_band_reset_witness :
  let st := feed sample_monitor [pressure_row "P1" "33"] empty_dicts in
  get (high_counts st) "P1" = 1 ∧
  let r := transition literal_float sample_monitor (pressure_row "P1" "31") st in
  high_counts r.1 !! "P1" = Some 0 ∧ low_counts r.1 !! "P1" = Some 0.
Proof.
  simpl. split; [vm_compute; reflexivity|].
  pose proof (safe_band_reset literal_float sample_monitor
                (pressure_row "P1" "31")
                (feed sample_monitor [pressure_row "P1" "33"] empty_dicts)
                "P1" (float_of_Z 31)
                ltac:(vm_compute; reflexivity) ltac:(vm_compute; reflexivity)
                ltac:(vm_compute; reflexivity)) as H.
  vm_compute in H. vm_compute. exact H.
Defined.

(** After a rise of 2, a rise of 1 is within the allowed change and stores
    0 for both rate streaks. *)
Lemma stable_reading_resets_rate_streaks_witness :
  let st := feed sample_monitor [pressure_row "P1" "20"; pressure_row "P1" "22"]
              empty_dicts in
  let r := transition literal_float sample_monitor (pressure_row "P1" "23") st in
  get (up_counts st) "P1" = 1 ∧
  up_counts r.1 !! "P1" = Some 0 ∧ down_counts r.1 !! "P1" = Some 0.
Proof.
  simpl. split; [vm_compute; reflexivity|].
  pose proof (stable_reading_resets_rate_streaks literal_float sample_monitor
                (pressure_row "P1" "23")
                (feed sample_monitor
                   [pressure_row "P1" "20"; pressure_row "P1" "22"] empty_dicts)
                "P1" (float_of_Z 23) (float_of_Z 22)
                ltac:(vm_compute; reflexivity) ltac:(vm_compute; reflexivity)
                ltac:(vm_compute; reflexivity) ltac:(vm_compute; reflexivity)) as H.
  vm_compute in H. vm_compute. exact H.
Defined.

(** The first reading above the high threshold. *)
Lemma high_check_witness :
  let r := transition literal_float sample_monitor (pressure_row "P1" "33")
             empty_dicts in
  high_counts r.1 !! "P1" = Some 1 ∧ low_counts r.1 !! "P1" = Some 0.
Proof.
  simpl.
  pose proof (high_check literal_float sample_monitor (pressure_row "P1" "33")
                empty_dicts "P1" (float_of_Z 33)
                ltac:(vm_compute; reflexivity) ltac:(vm_compute; reflexivity)) as H.
  vm_compute in H. vm_compute. exact H.
Defined.

(** The first reading below the low threshold. *)
Lemma low_check_witness :
  let r := transition literal_float sample_monitor (pressure_row "P1" "10")
             empty_dicts in
  low_counts r.1 !! "P1" = Some 1 ∧ high_counts r.1 !! "P1" = Some 0.
Proof.
  simpl.
  pose proof (low_check literal_float sample_monitor (pressure_row "P1" "10")
                empty_dicts "P1" (float_of_Z 10)
                ltac:(vm_compute; reflexivity) ltac:(vm_compute; reflexivity)
                ltac:(vm_compute; reflexivity)) as H.
  vm_compute in H. vm_compute. exact H.
Defined.

(** A fall from 30 to 25. *)
Lemma falling_check_witness :
  let st := feed sample_monitor [pressure_row "P1" "30"] empty_dicts in
  let r := transition literal_float sample_monitor (pressure_row "P1" "25") st in
  r.2 = Returned None ∧
  up_counts r.1 !! "P1" = Some 0 ∧ down_counts r.1 !! "P1" = Some 1.
Proof.
  simpl.
  assert (¬ preempted Increased
            (transition literal_float sample_monitor (pressure_row "P1" "25")
               (feed sample_monitor [pressure_row "P1" "30"] empty_dicts)).2)
    as Hpre.
  { intros (e & He & _). vm_compute in He. discriminate. }
  pose proof (falling_check literal_float sample_monitor
                (pressure_row "P1" "25")
                (feed sample_monitor [pressure_row "P1" "30"] empty_dicts)
                "P1" (float_of_Z 25) (float_of_Z 30)
                ltac:(vm_compute; reflexivity) ltac:(vm_compute; reflexivity)
                ltac:(vm_compute; reflexivity) ltac:(vm_compute; reflexivity)
                ltac:(vm_compute; reflexivity) Hpre) as H.
  vm_compute in H. vm_compute. exact H.
Defined.

(** A cell holding "nan" after a reading above the high threshold: the high
    streak stays at 1. *)
Lemma nan_reading_counts_nothing_witness :
  let st := feed sample_monitor [pressure_row "P1" "33"] empty_dicts in
  transition sample_float sample_monitor (pressure_row "P1" "nan") st
    = (set_prev_value (insert "P1" S754_nan) st, Returned None).
Proof.
  apply (nan_reading_counts_nothing sample_float sample_monitor
           (pressure_row "P1" "nan") _ "P1").
  vm_compute. reflexivity.
Defined.

(** The first reading of an entity. *)
Lemma no_usable_previous_value_witness :
  let r := transition literal_float sample_monitor (pressure_row "P1" "33")
             empty_dicts in
  up_counts r.1 = up_counts empty_dicts ∧
  down_counts r.1 = down_counts empty_dicts ∧
  ∀ e, r.2 = Returned (Some e) →
    condition_of e = TooHigh ∨ condition_of e = TooLow.
Proof.
  apply (no_usable_previous_value literal_float sample_monitor
           (pressure_row "P1" "33") empty_dicts "P1" (float_of_Z 33)).
  - vm_compute. reflexivity.
  - intros prev H. vm_compute in H. discriminate.
Defined.

(** What is stored for "P2" does not matter to a reading of "P1". *)
Lemma outcome_depends_on_own_entry_witness :
  let st1 := feed sample_monitor [pressure_row "P1" "33"] empty_dicts in
  let st2 := feed sample_monitor [pressure_row "P1" "33"; pressure_row "P2" "40"]
               empty_dicts in
  let r1 := transition literal_float sample_monitor (pressure_row "P1" "34") st1 in
  let r2 := transition literal_float sample_monitor (pressure_row "P1" "34") st2 in
  r1.2 = r2.2 ∧ entry r1.1 "P1" = entry r2.1 "P1".
Proof.
  apply (outcome_depends_on_own_entry literal_float sample_monitor
           (pressure_row "P1" "34") _ _ "P1" (float_of_Z 34)).
  - vm_compute. reflexivity.
  - vm_compute. reflexivity.
Defined.

(** A reading of "P1" and a reading of "P2", in either order. *)
Lemma readings_of_two_entities_commute_witness :
  let evA := pressure_row "P1" "33" in
  let evB := pressure_row "P2" "10" in
  let rA := transition literal_float sample_monitor evA empty_dicts in
  let rAB := transition literal_float sample_monitor evB rA.1 in
  let rB := transition literal_float sample_monitor evB empty_dicts in
  let rBA := transition literal_float sample_monitor evA rB.1 in
  rAB.1 = rBA.1 ∧ rA.2 = rBA.2 ∧ rB.2 = rAB.2.
Proof.
  apply (readings_of_two_entities_commute literal_float sample_monitor
           (pressure_row "P1" "33") (pressure_row "P2" "10") empty_dicts
           "P1" "P2" (float_of_Z 33) (float_of_Z 10)).
  - vm_compute. reflexivity.
  - vm_compute. reflexivity.
  - discriminate.
Defined.

(** A new class is quiet when the tolerance is not negative. *)
Lemma quiet_empty_dicts self :
  (0 ≤ MAX_UNSAFE self)%Z → quiet self empty_dicts.
Proof. intros H c pdm_id. destruct c; unfold get; simpl; by rewrite lookup_empty. Qed.

(** With a tolerance of 3, the first error of four readings above the high
    threshold reports a streak of 4. *)
Lemma first_error_is_one_past_tolerance_witness :
  ∃ c pdm_id count,
    WasTooHigh "P1" (4 * FREQ) = report sample_monitor c pdm_id count ∧
    Z.of_nat count = (MAX_UNSAFE sample_monitor + 1)%Z.
Proof.
  apply (first_error_is_one_past_tolerance literal_float sample_monitor
           [pressure_row "P1" "33"; pressure_row "P1" "34";
            pressure_row "P1" "35"; pressure_row "P1" "36"]
           empty_dicts
           (feed sample_monitor
              [pressure_row "P1" "33"; pressure_row "P1" "34";
               pressure_row "P1" "35"; pressure_row "P1" "36"] empty_dicts)
           _ [] None).
  - apply quiet_empty_dicts. vm_compute. discriminate.
  - vm_compute. reflexivity.
Defined.

(** After three readings above the high threshold and no error, no counter
    is above the tolerance of 3. *)
Lemma quiet_while_no_error_witness :
  quiet sample_monitor
    (feed sample_monitor
       [pressure_row "P1" "33"; pressure_row "P1" "34"; pressure_row "P1" "35"]
       empty_dicts).
Proof.
  apply (quiet_while_no_error literal_float sample_monitor
           [pressure_row "P1" "33"; pressure_row "P1" "34";
            pressure_row "P1" "35"] empty_dicts _ None).
  - apply quiet_empty_dicts. vm_compute. discriminate.
  - vm_compute. reflexivity.
Defined.

(** Two wrong answers, then Enter; the line after it is left unread. With
    room on the stack for three activations the call returns; with room for
    two it raises after the second complaint. The monitor here is a counter
    of the calls of [monitor.end]. *)
Lemma get_next_input_waits_for_enter_or_q_witness :
  get_next_input nat Empty_set (λ n, (S n, None)) 3 ["yes"; "Q"; ""; "q"] 0
    = ([ask; complain; ask; complain; ask], Falls Empty_set, ["q"], 0) ∧
  get_next_input nat Empty_set (λ n, (S n, None)) 2 ["yes"; "Q"; ""; "q"] 0
    = ([ask; complain; ask; complain], RecursionError Empty_set, [""; "q"], 0).
Proof.
  assert (Forall (λ resp : string, resp ≠ "q" ∧ resp ≠ "") ["yes"; "Q"]) as Hbad
    by (repeat constructor; discriminate).
  split.
  - apply (proj1 (get_next_input_waits_for_enter_or_q nat Empty_set
                    (λ n, (S n, None)) 3 ["yes"; "Q"] ["q"] 0 Hbad)).
    simpl. lia.
  - apply (proj2 (get_next_input_waits_for_enter_or_q nat Empty_set
                    (λ n, (S n, None)) 2 ["yes"; "Q"] [""; "q"] 0 Hbad)).
    reflexivity.
Defined.

(** With [-l 3], of the rows 33, [None], 34, 35 the first three count as
    lines, and 33 and 34 are evaluated. *)
Lemma main_evaluates_rows_within_limit_witness :
  let items := [Some (pressure_row "P1" "33"); None;
                Some (pressure_row "P1" "34"); Some (pressure_row "P1" "35")] in
  evaluated (main _ _ sample_new sample_eval (λ m, (m, None)) 100 sample_args
               items []).1
    = [pressure_row "P1" "33"; pressure_row "P1" "34"].
Proof.
  simpl.
  apply (proj2 (main_evaluates_rows_within_limit _ _ sample_new sample_eval
                  (λ m, (m, None)) 100 sample_args
                  [Some (pressure_row "P1" "33"); None;
                   Some (pressure_row "P1" "34"); Some (pressure_row "P1" "35")]
                  [])).
  vm_compute. reflexivity.
Defined.
